(** * Battery management firmware: the object dictionary header

    A shallow embedding of [firmware/power-management-objdic.h]: the
    enumerations, the measurement and battery-state structures, the
    calibration constants, the compiled-in defaults and the configuration
    record, followed by the properties the specification states about
    them. *)

From Stdlib Require Import ZArith QArith Qround Qabs Lia.
From stdpp Require Import base list strings.

Local Open Scope Z_scope.

(** ** Fixed topology (lines 34-40) *)

Definition NUM_BATS : nat := 3.
Definition NUM_LOADS : nat := 2.
Definition NUM_PANELS : nat := 1.
(** The macro body is the unparenthesised sum; [data[NUM_IFS]] sees 6. *)
Definition NUM_IFS : nat := (NUM_BATS + NUM_LOADS + NUM_PANELS)%nat.
Definition LOAD_1 : nat := 0.
Definition LOAD_2 : nat := 1.
Definition PANEL : nat := 2.

(** ** Battery state identifiers (lines 45-53) *)

Inductive battery_Type := wetT | gelT | agmT.
Inductive battery_Fl_States := normalF | lowF | criticalF | faultyF.
Inductive battery_Op_States := loadedO | chargingO | isolatedO.
Inductive battery_Ch_States := bulkC | absorptionC | floatC | restC | equalizationC.
Inductive battery_Hl_States := goodH | faultyH | missingH | weakH.

(** The enumerators' integer values, as written in the typedefs. *)
Definition battery_Type_code (t : battery_Type) : Z :=
  match t with wetT => 0 | gelT => 1 | agmT => 2 end.
Definition battery_Fl_code (f : battery_Fl_States) : Z :=
  match f with normalF => 0 | lowF => 1 | criticalF => 2 | faultyF => 3 end.
Definition battery_Op_code (o : battery_Op_States) : Z :=
  match o with loadedO => 0 | chargingO => 1 | isolatedO => 2 end.
Definition battery_Ch_code (c : battery_Ch_States) : Z :=
  match c with
  | bulkC => 0 | absorptionC => 1 | floatC => 2 | restC => 3
  | equalizationC => 4
  end.
Definition battery_Hl_code (h : battery_Hl_States) : Z :=
  match h with goodH => 0 | faultyH => 1 | missingH => 2 | weakH => 3 end.

#[global] Instance battery_Type_eq_dec : EqDecision battery_Type.
Proof. solve_decision. Defined.
#[global] Instance battery_Fl_eq_dec : EqDecision battery_Fl_States.
Proof. solve_decision. Defined.
#[global] Instance battery_Op_eq_dec : EqDecision battery_Op_States.
Proof. solve_decision. Defined.
#[global] Instance battery_Ch_eq_dec : EqDecision battery_Ch_States.
Proof. solve_decision. Defined.
#[global] Instance battery_Hl_eq_dec : EqDecision battery_Hl_States.
Proof. solve_decision. Defined.

(** ** Task pacing (lines 85-100)

    Each delay is [(portTickType)N/portTICK_RATE_MS], a number of scheduler
    ticks.  [portTICK_RATE_MS] (milliseconds per tick) comes from the
    FreeRTOS port and is a parameter here; the header's comments assume
    1 ms ticks. *)

Section Delays.
Variable portTICK_RATE_MS : Z.

Definition WATCHDOG_DELAY : Z := 512 / portTICK_RATE_MS.
Definition CHARGER_DELAY : Z := 512 / portTICK_RATE_MS.
Definition MONITOR_DELAY : Z := 512 / portTICK_RATE_MS.
Definition MEASUREMENT_DELAY : Z := 512 / portTICK_RATE_MS.
Definition CALIBRATION_DELAY : Z := 4096 / portTICK_RATE_MS.

(** The period of a task that sleeps [ticks] scheduler ticks. *)
Definition period_ms (ticks : Z) : Z := ticks * portTICK_RATE_MS.
End Delays.

(** ** Calibration factors (lines 103-168) *)

Definition CURRENT_OFFSET : Z := 2028.
Definition CURRENT_SCALE : Z := 8373.

(** [VERSION] selects the voltage amplifier parameters; any value other
    than 1, 2 or 3 stops the build with [#error], so the board revision is
    an enumeration. *)
Inductive board_version := Version1 | Version2 | Version3.

Definition VERSION_number (v : board_version) : Z :=
  match v with Version1 => 1 | Version2 => 2 | Version3 => 3 end.

Definition VOLTAGE_OFFSET (v : board_version) : Z :=
  match v with
  | Version1 => 9453071
  | Version2 => 9611946
  | Version3 => 10565197
  end.

Definition VOLTAGE_SCALE (v : board_version) : Z :=
  match v with
  | Version1 => 1523
  | Version2 => 1548
  | Version3 => 1418
  end.

Definition TEMPERATURE_SCALE : Z := 328 * 256.
Definition TEMPERATURE_OFFSET : Z := 3412.
Definition TEMPERATURE_LIMIT : Z := 45.

(** The (offset, scale) pairs a build for board revision [v] compiles in.
    The voltage macros sit inside the [#if (VERSION==...)] chain; the
    temperature macros are defined after its [#endif], once for all
    revisions. *)
Definition voltage_pair (v : board_version) : Z * Z :=
  (VOLTAGE_OFFSET v, VOLTAGE_SCALE v).
Definition temperature_pair (v : board_version) : Z * Z :=
  (TEMPERATURE_OFFSET, TEMPERATURE_SCALE).

(** A build-time quantity is selected by [VERSION] when two board revisions
    give it different values. *)
Definition selected_by_VERSION {A : Type} (q : board_version -> A) : Prop :=
  exists v1 v2, q v1 <> q v2.

(** ** Battery defaults (lines 171-178) *)

Definition BATTERY_CAPACITY_1 : Z := 100.
Definition BATTERY_CAPACITY_2 : Z := 100.
Definition BATTERY_CAPACITY_3 : Z := 100.
Definition BATTERY_TYPE_1 : battery_Type := wetT.
Definition BATTERY_TYPE_2 : battery_Type := gelT.
Definition BATTERY_TYPE_3 : battery_Type := wetT.

(** ** Monitoring triggers (lines 180-189), absolute voltages times 256 *)

Definition GOOD_VOLTAGE : Z := 3328.      (* commented 13.0V *)
Definition LOW_VOLTAGE : Z := 3072.       (* commented 12.0V *)
Definition CRITICAL_VOLTAGE : Z := 2995.  (* commented 11.5V *)
Definition WEAK_VOLTAGE : Z := 2944.      (* commented 11.1V *)

Definition LOW_SOC : Z := 60 * 256.
Definition CRITICAL_SOC : Z := 45 * 256.

(** ** Charger algorithm defaults (lines 191-221) *)

Definition REST_TIME : Z := 30.
Definition ABSORPTION_TIME : Z := 90.
Definition MIN_DUTYCYCLE : Z := 256.
Definition FLOAT_DELAY : Z := 7200.
Definition FLOAT_BULK_SOC : Z := 95 * 256.
Definition REST_SoC : Z := 70 * 256.
Definition SoC_HYSTERESIS : Z := 5 * 256.
Definition FLOAT_DELAY_LIMIT : Z := 10.

(** ** Fixed-point reading of the documented values

    A quantity "times 256": the rational number the documentation gives,
    scaled by 256.  Voltages are given to one decimal, so they are entered
    in tenths of a volt. *)

Definition x256 (q : Q) : Q := (q * 256)%Q.
Definition volts (tenths : Z) : Q := (tenths # 10)%Q.
Definition percent (p : Z) : Q := inject_Z p.

(** The integer nearest below and nearest above a times-256 value: every
    rounding convention stores one of the two. *)
Definition x256_floor (q : Q) : Z := Qfloor (x256 q).
Definition x256_ceiling (q : Q) : Z := Qceiling (x256 q).

(** ** Machine integers

    Values are kept in [Z]; a store into a fixed-width object wraps. *)

Definition uint16 (x : Z) : Z := x mod 2 ^ 16.
Definition uint32 (x : Z) : Z := x mod 2 ^ 32.
Definition int16 (x : Z) : Z := (x + 2 ^ 15) mod 2 ^ 16 - 2 ^ 15.
Definition int32 (x : Z) : Z := (x + 2 ^ 31) mod 2 ^ 32 - 2 ^ 31.

Definition in_int16 (x : Z) : Prop := - 2 ^ 15 <= x < 2 ^ 15.

(** ** C object layout

    Sizes, alignments and member offsets as the compiler assigns them:
    members in declaration order, each at the next multiple of its
    alignment, the whole padded to the largest member alignment; the
    members of a union all start at offset 0. *)

#[warnings="-register-all"]
Inductive ctype :=
  | Tbool | Tuint8 | Tint16 | Tuint16 | Tint32 | Tuint32
  | Tenum | TportTickType
  | Tarray (elem : ctype) (n : nat)
  | Tstruct (members : list (string * ctype))
  | Tunion (members : list (string * ctype)).

(** What the header leaves to the build: whether enumerations are packed
    into the smallest integer type (-fshort-enums; every enumeration here
    fits a byte) and whether FreeRTOS uses 16-bit ticks. *)
Record abi := { short_enums : bool; use_16_bit_ticks : bool }.

Definition align_up (off a : nat) : nat := (Nat.div (off + a - 1) a * a)%nat.

Section Layout.
Variable target : abi.

Definition scalar_size (t : ctype) : nat :=
  match t with
  | Tbool | Tuint8 => 1
  | Tint16 | Tuint16 => 2
  | Tint32 | Tuint32 => 4
  | Tenum => if short_enums target then 1 else 4
  | TportTickType => if use_16_bit_ticks target then 2 else 4
  | _ => 0
  end%nat.

Fixpoint alignof (t : ctype) : nat :=
  match t with
  | Tarray e _ => alignof e
  | Tstruct ms | Tunion ms =>
      (fix members_align (ms : list (string * ctype)) : nat :=
         match ms with
         | [] => 1
         | (_, mt) :: rest => Nat.max (alignof mt) (members_align rest)
         end) ms
  | _ => scalar_size t
  end%nat.

Fixpoint sizeof (t : ctype) : nat :=
  match t with
  | Tarray e n => n * sizeof e
  | Tstruct ms =>
      align_up
        ((fix members_end (off : nat) (ms : list (string * ctype)) : nat :=
            match ms with
            | [] => off
            | (_, mt) :: rest =>
                members_end (align_up off (alignof mt) + sizeof mt) rest
            end) 0 ms)
        (alignof t)
  | Tunion ms =>
      align_up
        ((fix members_max (ms : list (string * ctype)) : nat :=
            match ms with
            | [] => 0
            | (_, mt) :: rest => Nat.max (sizeof mt) (members_max rest)
            end) ms)
        (alignof t)
  | _ => scalar_size t
  end%nat.

(** Offset of member [name], scanning a struct's members from [off]. *)
Fixpoint member_offset (off : nat) (ms : list (string * ctype))
    (name : string) : option nat :=
  match ms with
  | [] => None
  | (n, mt) :: rest =>
      let o := align_up off (alignof mt) in
      if decide (n = name) then Some o
      else member_offset (o + sizeof mt)%nat rest name
  end.

Definition member_type (ms : list (string * ctype)) (name : string)
    : option ctype :=
  snd <$> find (fun m => bool_decide (fst m = name)) ms.

Definition offsetof (t : ctype) (name : string) : option nat :=
  match t with
  | Tstruct ms => member_offset 0 ms name
  | Tunion ms => _ ← member_type ms name; Some 0%nat
  | _ => None
  end.
End Layout.

Definition member_names (t : ctype) : list string :=
  match t with
  | Tstruct ms | Tunion ms => fst <$> ms
  | _ => []
  end.

(** Number of elements of a member: [Some n] for an array member,
    [None] for a scalar one. *)
Definition array_length (t : ctype) : option nat :=
  match t with Tarray _ n => Some n | _ => None end.

(** ** Measured data (lines 55-68) *)

Definition struct_Interface : ctype :=
  Tstruct [ ("battery", Tarray Tint16 NUM_BATS);
            ("load", Tarray Tint16 NUM_LOADS);
            ("panel", Tarray Tint16 NUM_PANELS) ].

Definition union_InterfaceGroup : ctype :=
  Tunion [ ("data", Tarray Tint16 NUM_IFS);
           ("dataArray", struct_Interface) ].

(** An element of [struct Interface]: [battery[j]], [load[j]] or
    [panel[j]]. *)
Inductive Interface_member :=
  | battery (j : nat)
  | load (j : nat)
  | panel (j : nat).

Definition Interface_member_valid (c : Interface_member) : Prop :=
  match c with
  | battery j => (j < NUM_BATS)%nat
  | load j => (j < NUM_LOADS)%nat
  | panel j => (j < NUM_PANELS)%nat
  end.

(** "These offsets are for battery 1-3, load 1-2 and panel, in order". *)
Definition index_of_member (c : Interface_member) : nat :=
  match c with
  | battery j => j
  | load j => NUM_BATS + j
  | panel j => NUM_BATS + NUM_LOADS + j
  end%nat.

Definition member_of_index (i : nat) : option Interface_member :=
  if decide (i < NUM_BATS)%nat then Some (battery i)
  else if decide (i < NUM_BATS + NUM_LOADS)%nat then Some (load (i - NUM_BATS))
  else if decide (i < NUM_IFS)%nat then Some (panel (i - NUM_BATS - NUM_LOADS))
  else None.

(** The bytes of one object, little-endian as on the STM32. *)
Definition load_int16 (m : list Z) (addr : nat) : option Z :=
  lo ← m !! addr; hi ← m !! S addr; Some (int16 (lo + 256 * hi)).

Definition store_int16 (m : list Z) (addr : nat) (v : Z) : list Z :=
  <[addr := v mod 256]> (<[S addr := (v / 256) mod 256]> m).

Section InterfaceGroupViews.
Variable target : abi.

(** Address of [g.data[i]] inside a [union InterfaceGroup] object. *)
Definition data_addr (i : nat) : option nat :=
  base ← offsetof target union_InterfaceGroup "data";
  if decide (i < NUM_IFS)%nat
  then Some (base + i * sizeof target Tint16)%nat else None.

(** Address of [g.dataArray.battery[j]] and its siblings. *)
Definition dataArray_addr (c : Interface_member) : option nat :=
  base ← offsetof target union_InterfaceGroup "dataArray";
  let '(name, j, n) :=
    match c with
    | battery j => ("battery", j, NUM_BATS)
    | load j => ("load", j, NUM_LOADS)
    | panel j => ("panel", j, NUM_PANELS)
    end in
  off ← offsetof target struct_Interface name;
  if decide (j < n)%nat
  then Some (base + off + j * sizeof target Tint16)%nat else None.

Definition read_data (m : list Z) (i : nat) : option Z :=
  a ← data_addr i; load_int16 m a.
Definition read_dataArray (m : list Z) (c : Interface_member) : option Z :=
  a ← dataArray_addr c; load_int16 m a.
Definition write_data (m : list Z) (i : nat) (v : Z) : option (list Z) :=
  a ← data_addr i; Some (store_int16 m a v).
Definition write_dataArray (m : list Z) (c : Interface_member) (v : Z)
    : option (list Z) :=
  a ← dataArray_addr c; Some (store_int16 m a v).
End InterfaceGroupViews.

(** ** Battery state (lines 70-82)

    "All current, voltage, SoC, charge variables are times 256." *)

Definition struct_batteryStates : ctype :=
  Tstruct [ ("currentSteady", Tuint16);
            ("fillState", Tenum);
            ("opState", Tenum);
            ("healthState", Tenum);
            ("lastCurrent", Tint16);
            ("lastVoltage", Tint16);
            ("SoC", Tuint16);
            ("charge", Tint32);
            ("isolationTime", Tuint32) ].

Record batteryStates := {
  currentSteady : Z;                 (* uint16_t *)
  fillState : battery_Fl_States;
  opState : battery_Op_States;
  healthState : battery_Hl_States;
  lastCurrent : Z;                   (* int16_t *)
  lastVoltage : Z;                   (* int16_t *)
  SoC : Z;                           (* uint16_t, percent times 256 *)
  charge : Z;                        (* int32_t, Coulombs times 256 *)
  isolationTime : Z                  (* uint32_t *)
}.

(** ** Configuration items (lines 228-281) *)

Definition struct_Config : ctype :=
  Tstruct [ ("validBlock", Tuint8);
            ("enableSend", Tbool);
            ("measurementSend", Tbool);
            ("debugMessageSend", Tbool);
            ("recording", Tbool);
            ("batteryCapacity", Tarray Tuint16 NUM_BATS);
            ("batteryType", Tarray Tenum NUM_BATS);
            ("absorptionVoltage", Tarray Tint16 NUM_BATS);
            ("floatVoltage", Tarray Tint16 NUM_BATS);
            ("floatStageCurrentScale", Tarray Tint16 NUM_BATS);
            ("bulkCurrentLimitScale", Tarray Tint16 NUM_BATS);
            ("alphaR", Tint16);
            ("alphaV", Tint16);
            ("alphaC", Tint16);
            ("autoTrack", Tbool);
            ("panelSwitchSetting", Tuint8);
            ("monitorStrategy", Tuint8);
            ("lowVoltage", Tint16);
            ("criticalVoltage", Tint16);
            ("lowSoC", Tint16);
            ("criticalSoC", Tint16);
            ("floatBulkSoC", Tint16);
            ("chargerStrategy", Tuint8);
            ("restTime", Tint16);
            ("absorptionTime", Tuint16);
            ("minDutyCycle", Tint16);
            ("floatTime", Tint16);
            ("watchdogDelay", TportTickType);
            ("chargerDelay", TportTickType);
            ("measurementDelay", TportTickType);
            ("monitorDelay", TportTickType);
            ("calibrationDelay", TportTickType);
            ("currentOffsets", union_InterfaceGroup) ].

Definition CONFIG_BLOCK_SIZE : nat := 2048.

Definition union_ConfigGroup : ctype :=
  Tunion [ ("data", Tarray Tuint8 CONFIG_BLOCK_SIZE);
           ("config", struct_Config) ].

(** The configuration as a value.  Arrays are lists; [currentOffsets] is
    the [data] view of its [union InterfaceGroup]. *)
Record Config := {
  validBlock : Z;
  enableSend : bool;
  measurementSend : bool;
  debugMessageSend : bool;
  recording : bool;
  batteryCapacity : list Z;
  batteryType : list battery_Type;
  absorptionVoltage : list Z;
  floatVoltage : list Z;
  floatStageCurrentScale : list Z;
  bulkCurrentLimitScale : list Z;
  alphaR : Z;
  alphaV : Z;
  alphaC : Z;
  autoTrack : bool;
  panelSwitchSetting : Z;
  monitorStrategy : Z;
  lowVoltage : Z;
  criticalVoltage : Z;
  lowSoC : Z;
  criticalSoC : Z;
  floatBulkSoC : Z;
  chargerStrategy : Z;
  restTime : Z;
  absorptionTime : Z;
  minDutyCycle : Z;
  floatTime : Z;
  watchdogDelay : Z;
  chargerDelay : Z;
  measurementDelay : Z;
  monitorDelay : Z;
  calibrationDelay : Z;
  currentOffsets : list Z
}.

(** ** Prototypes (lines 287-312): name, return type, parameter types *)

Definition prototypes : list (string * string * list string) :=
  [ ("setGlobalDefaults", "void", []);
    ("writeConfigBlock", "uint32_t", []);
    ("setBatteryChargeParameters", "void", ["int"]);
    ("getBatteryType", "battery_Type", ["int"]);
    ("getBatteryCapacity", "int16_t", ["int"]);
    ("getBulkCurrentLimit", "int16_t", ["int"]);
    ("getFloatStageCurrent", "int16_t", ["int"]);
    ("getAbsorptionVoltage", "int16_t", ["int"]);
    ("getFloatVoltage", "int16_t", ["int"]);
    ("getAlphaV", "int16_t", []);
    ("getAlphaC", "int16_t", []);
    ("getAlphaR", "int16_t", []);
    ("getCurrentOffset", "int16_t", ["uint8_t"]);
    ("setCurrentOffset", "void", ["uint8_t"; "int16_t"]);
    ("getWatchdogDelay", "portTickType", []);
    ("getChargerDelay", "portTickType", []);
    ("getMeasurementDelay", "portTickType", []);
    ("getMonitorDelay", "portTickType", []);
    ("getCalibrationDelay", "portTickType", []);
    ("getPanelSwitchSetting", "uint8_t", []);
    ("setPanelSwitchSetting", "void", ["uint8_t"]);
    ("isRecording", "bool", []);
    ("isAutoTrack", "bool", []);
    ("getMonitorStrategy", "uint8_t", []);
    ("getControls", "uint16_t", []) ].

(** The functions that write: those named [set...]. *)
Definition setters : list string :=
  filter (fun n => String.prefix "set" n = true) (prototypes.*1.*1).

(** A name mentions a word when the word occurs in it. *)
Definition mentions (word name : string) : bool :=
  bool_decide (is_Some (String.index 0 word name)).

(** ** The configuration record as the specification lists it

    Section 6 of the specification, group by group.  Each entry gives the
    field and its extent: [None] for one value, [Some n] for [n] values
    (one per battery, or one per interface). *)

Definition spec_validity : list (string * option nat) :=
  [ ("validBlock", None) ].
Definition spec_enable_flags : list (string * option nat) :=
  [ ("enableSend", None); ("measurementSend", None);
    ("debugMessageSend", None); ("recording", None) ].
Definition spec_per_battery : list (string * option nat) :=
  [ ("batteryCapacity", Some NUM_BATS); ("batteryType", Some NUM_BATS);
    ("absorptionVoltage", Some NUM_BATS); ("floatVoltage", Some NUM_BATS);
    ("floatStageCurrentScale", Some NUM_BATS);
    ("bulkCurrentLimitScale", Some NUM_BATS) ].
Definition spec_global : list (string * option nat) :=
  [ ("alphaR", None); ("alphaV", None); ("alphaC", None);
    ("autoTrack", None); ("panelSwitchSetting", None);
    ("monitorStrategy", None); ("chargerStrategy", None) ].
Definition spec_thresholds : list (string * option nat) :=
  [ ("lowVoltage", None); ("criticalVoltage", None);
    ("lowSoC", None); ("criticalSoC", None); ("floatBulkSoC", None) ].
Definition spec_timing : list (string * option nat) :=
  [ ("restTime", None); ("absorptionTime", None);
    ("minDutyCycle", None); ("floatTime", None) ].
Definition spec_tick_delays : list (string * option nat) :=
  [ ("watchdogDelay", None); ("chargerDelay", None); ("monitorDelay", None);
    ("measurementDelay", None); ("calibrationDelay", None) ].
Definition spec_current_offsets : list (string * option nat) :=
  [ ("currentOffsets", Some NUM_IFS) ].

Definition spec_Config_fields : list (string * option nat) :=
  spec_validity ++ spec_enable_flags ++ spec_per_battery ++ spec_global
  ++ spec_thresholds ++ spec_timing ++ spec_tick_delays
  ++ spec_current_offsets.

(** Extent of a member as declared: an array's length, the length of the
    flat [data] view for the interface union, nothing for a scalar. *)
Definition member_extent (t : ctype) : option nat :=
  match t with
  | Tarray _ n => Some n
  | Tunion (("data", Tarray _ n) :: _) => Some n
  | _ => None
  end.

Definition declared_fields (t : ctype) : list (string * option nat) :=
  match t with
  | Tstruct ms | Tunion ms => prod_map id member_extent <$> ms
  | _ => []
  end.

(** ** Severity of the classifications

    Fill states: the specification orders them "normal, low, critical" from
    better to worse, with faulty beyond critical.  Health states: the
    header says "weak - avoid allocating to load, faulty - charging did not
    end cleanly"; a weak battery stays in service while a faulty or a
    missing one is taken out, so good is milder than weak, and weak is
    milder than faulty and than missing. *)

Definition fill_milder (a b : battery_Fl_States) : bool :=
  match a, b with
  | normalF, (lowF | criticalF | faultyF) => true
  | lowF, (criticalF | faultyF) => true
  | criticalF, faultyF => true
  | _, _ => false
  end.

Definition health_milder (a b : battery_Hl_States) : bool :=
  match a, b with
  | goodH, (weakH | faultyH | missingH) => true
  | weakH, (faultyH | missingH) => true
  | _, _ => false
  end.

(** Integer comparison agrees with severity on the pair [(a, b)]. *)
Definition health_code_agrees (a b : battery_Hl_States) : Prop :=
  battery_Hl_code a < battery_Hl_code b <-> health_milder a b = true.

(** ** Calibration conversion *)

Inductive channel_class := currentClass | voltageClass | temperatureClass.

Record channel := { chClass : channel_class; chInterface : nat }.

Definition with_currentOffsets (cfg : Config) (offs : list Z) : Config :=
  {| validBlock := validBlock cfg;
     enableSend := enableSend cfg;
     measurementSend := measurementSend cfg;
     debugMessageSend := debugMessageSend cfg;
     recording := recording cfg;
     batteryCapacity := batteryCapacity cfg;
     batteryType := batteryType cfg;
     absorptionVoltage := absorptionVoltage cfg;
     floatVoltage := floatVoltage cfg;
     floatStageCurrentScale := floatStageCurrentScale cfg;
     bulkCurrentLimitScale := bulkCurrentLimitScale cfg;
     alphaR := alphaR cfg;
     alphaV := alphaV cfg;
     alphaC := alphaC cfg;
     autoTrack := autoTrack cfg;
     panelSwitchSetting := panelSwitchSetting cfg;
     monitorStrategy := monitorStrategy cfg;
     lowVoltage := lowVoltage cfg;
     criticalVoltage := criticalVoltage cfg;
     lowSoC := lowSoC cfg;
     criticalSoC := criticalSoC cfg;
     floatBulkSoC := floatBulkSoC cfg;
     chargerStrategy := chargerStrategy cfg;
     restTime := restTime cfg;
     absorptionTime := absorptionTime cfg;
     minDutyCycle := minDutyCycle cfg;
     floatTime := floatTime cfg;
     watchdogDelay := watchdogDelay cfg;
     chargerDelay := chargerDelay cfg;
     measurementDelay := measurementDelay cfg;
     monitorDelay := monitorDelay cfg;
     calibrationDelay := calibrationDelay cfg;
     currentOffsets := offs |}.

(** Modelled from the spec: the bodies of [getCurrentOffset] and
    [setCurrentOffset], of which the header has the prototypes only.  They
    read and write the entry of the configuration's [currentOffsets] table
    for the given interface; the offset arrives as an [int16_t].  An
    interface outside the table has no entry. *)
Definition getCurrentOffset (cfg : Config) (interface : nat) : option Z :=
  currentOffsets cfg !! interface.

Definition setCurrentOffset (cfg : Config) (interface : nat) (offset : Z)
    : Config :=
  with_currentOffsets cfg (<[interface := int16 offset]> (currentOffsets cfg)).

(** The (offset, scale) pair of a channel: per interface and held in the
    configuration for current, fixed by the board revision for voltage,
    fixed for temperature. *)
Definition channel_params (v : board_version) (cfg : Config) (ch : channel)
    : option (Z * Z) :=
  match chClass ch with
  | currentClass =>
      off ← getCurrentOffset cfg (chInterface ch); Some (off, CURRENT_SCALE)
  | voltageClass => Some (voltage_pair v)
  | temperatureClass => Some (temperature_pair v)
  end.

(** The specification's formula, "physicalValue = ((rawSample - offset) *
    scale) >> 12", over the integers; the specification gives no word
    size for the intermediate product. *)
Definition scale_sample (offset scale rawSample : Z) : Z :=
  Z.shiftr ((rawSample - offset) * scale) 12.

(** An offset that is given in the units of the scaled sample is added
    after the scaling. *)
Definition scale_then_offset (offset scale rawSample : Z) : Z :=
  Z.shiftr (rawSample * scale + offset) 12.

(** Modelled from the spec: [CalibrationConverter.convert], which is not in
    the header.  The current and temperature offsets are converter counts
    ("Subtract this from the measured value and scale by this factor",
    "Offset is 2.732V ... over 3.280 times 4096") and enter as the
    specification's formula has them.  The voltage offset is a voltage,
    "5 ... times the gain ... times 256 times 4096": it is already in the
    units of the scaled sample, so it enters after the scaling, where the
    specification's formula would subtract it from the raw sample. *)
Definition convert (v : board_version) (cfg : Config) (ch : channel)
    (rawSample : Z) : option Z :=
  p ← channel_params v cfg ch;
  Some (match chClass ch with
        | voltageClass => scale_then_offset p.1 p.2 rawSample
        | _ => scale_sample p.1 p.2 rawSample
        end).

(** The same formula with the product held in an [int32_t], as a C
    implementation on this target would compute it; the shift of a negative
    value is arithmetic. *)
Definition scale_sample32 (offset scale rawSample : Z) : Z :=
  Z.shiftr (int32 ((rawSample - offset) * scale)) 12.

(** A raw reading of the 12-bit converter. *)
Definition adc_sample (raw : Z) : Prop := 0 <= raw < 4096.

(** ** The per-tick pipeline

    The estimator, the charge-stage controller and the allocation manager
    are not in the header; they are taken from sections 4.3 to 4.5 and 5 of
    the specification and act on the header's [struct batteryStates]. *)

Definition clamp (x lo hi : Z) : Z := Z.max lo (Z.min hi x).

Definition SoC_MAX : Z := 100 * 256.

Definition with_charge_SoC (b : batteryStates) (c s : Z) : batteryStates :=
  {| currentSteady := currentSteady b; fillState := fillState b;
     opState := opState b; healthState := healthState b;
     lastCurrent := lastCurrent b; lastVoltage := lastVoltage b;
     SoC := s; charge := c; isolationTime := isolationTime b |}.

Definition with_fillState (b : batteryStates) (f : battery_Fl_States)
    : batteryStates :=
  {| currentSteady := currentSteady b; fillState := f;
     opState := opState b; healthState := healthState b;
     lastCurrent := lastCurrent b; lastVoltage := lastVoltage b;
     SoC := SoC b; charge := charge b; isolationTime := isolationTime b |}.

Definition with_healthState (b : batteryStates) (h : battery_Hl_States)
    : batteryStates :=
  {| currentSteady := currentSteady b; fillState := fillState b;
     opState := opState b; healthState := h;
     lastCurrent := lastCurrent b; lastVoltage := lastVoltage b;
     SoC := SoC b; charge := charge b; isolationTime := isolationTime b |}.

Definition with_opState (b : batteryStates) (o : battery_Op_States)
    : batteryStates :=
  {| currentSteady := currentSteady b; fillState := fillState b;
     opState := o; healthState := healthState b;
     lastCurrent := lastCurrent b; lastVoltage := lastVoltage b;
     SoC := SoC b; charge := charge b; isolationTime := isolationTime b |}.

Definition with_isolationTime (b : batteryStates) (t : Z) : batteryStates :=
  {| currentSteady := currentSteady b; fillState := fillState b;
     opState := opState b; healthState := healthState b;
     lastCurrent := lastCurrent b; lastVoltage := lastVoltage b;
     SoC := SoC b; charge := charge b; isolationTime := t |}.

(** Modelled from the spec: the body of [getBatteryCapacity]; the header
    has the prototype, returning [int16_t] from the [uint16_t] table. *)
Definition getBatteryCapacity (cfg : Config) (battery : nat) : Z :=
  int16 (default 0 (batteryCapacity cfg !! battery)).

(** The smoothed signals one tick hands to the estimator: current and
    voltage per battery, and the temperature reading. *)
Record Signals := {
  smoothedCurrent : nat -> Z;
  smoothedVoltage : nat -> Z;
  temperatureReading : Z
}.

(** Modelled from the spec: step 1 of the BatteryStateEstimator, which is
    not in the header.  "charge += current * dt", "SoC = clamp(charge /
    capacity, 0, 100x256)".  The accumulator is the header's [int32_t
    charge] and the result is stored in its [uint16_t SoC]; the division is
    C's, truncating, and yields 0 for a zero capacity as the Cortex-M3
    divider does. *)
Definition updateSoC (capacity dt current : Z) (b : batteryStates)
    : batteryStates :=
  let charge' := int32 (charge b + current * dt) in
  with_charge_SoC b charge' (uint16 (clamp (charge' ÷ capacity) 0 SoC_MAX)).

Definition unhealthy (b : batteryStates) : bool :=
  bool_decide (healthState b = faultyH \/ healthState b = missingH).

(** The specification describes the fill and health classifications and
    the choice between load and charger for the batteries in service
    only in prose, and leaves the ranking among candidates open; they
    are parameters of the pipeline. *)
Class Policy := {
  classifyFill :
    Config -> Signals -> nat -> batteryStates -> battery_Fl_States;
  classifyHealth :
    Config -> Signals -> nat -> batteryStates -> battery_Hl_States;
  selectRole :
    Config -> list batteryStates -> nat -> battery_Op_States
}.

Section Pipeline.
Context `{Policy}.


(** Modelled from the spec: the BatteryStateEstimator of section 4.3,
    steps 1 to 4 for one battery; dt is the measurement tick period. *)
Definition estimateBattery (cfg : Config) (sig : Signals) (i : nat)
    (b : batteryStates) : batteryStates :=
  let b1 := updateSoC (getBatteryCapacity cfg i) (measurementDelay cfg)
              (smoothedCurrent sig i) b in
  let b2 := with_fillState b1 (classifyFill cfg sig i b1) in
  let b3 := with_healthState b2 (classifyHealth cfg sig i b2) in
  if decide (opState b3 = isolatedO)
  then with_isolationTime b3
         (uint32 (isolationTime b3 + measurementDelay cfg))
  else b3.

Definition BatteryStateEstimator (cfg : Config) (sig : Signals)
    (bs : list batteryStates) : list batteryStates :=
  imap (estimateBattery cfg sig) bs.

(** Modelled from the spec: the hard-fault exit of the
    ChargeStageController of section 4.4, its only effect on the
    operational state: while charging, a temperature at or above
    [TEMPERATURE_LIMIT] or a faulty or missing battery forces isolation.
    The charge stage itself is not part of [struct batteryStates]. *)
Definition hardFault (sig : Signals) (b : batteryStates) : bool :=
  bool_decide (opState b = chargingO)
  && (bool_decide (TEMPERATURE_LIMIT <= temperatureReading sig)
      || unhealthy b).

Definition ChargeStageController (cfg : Config) (sig : Signals)
    (bs : list batteryStates) : list batteryStates :=
  (fun b => if hardFault sig b then with_opState b isolatedO else b) <$> bs.

(** Modelled from the spec: the AllocationManager of section 4.5.  "When
    autoTrack is false, allocation is a no-op and external assignment is
    honored as-is"; when it is set, the batteries whose health state is
    faulty or missing are isolated and a role is chosen for the others. *)
Definition allocateBattery (cfg : Config) (bs : list batteryStates)
    (i : nat) (b : batteryStates) : batteryStates :=
  if autoTrack cfg then
    if unhealthy b then with_opState b isolatedO
    else with_opState b (selectRole cfg bs i)
  else b.

Definition AllocationManager (cfg : Config) (bs : list batteryStates)
    : list batteryStates :=
  imap (allocateBattery cfg bs) bs.

(** One measurement tick, in the order section 5 fixes. *)
Definition tick (cfg : Config) (bs : list batteryStates) (sig : Signals)
    : list batteryStates :=
  AllocationManager cfg
    (ChargeStageController cfg sig (BatteryStateEstimator cfg sig bs)).

Definition run (cfg : Config) (bs : list batteryStates)
    (sigs : list Signals) : list batteryStates :=
  foldl (tick cfg) bs sigs.
End Pipeline.

(** ** Predicates on the battery table *)

Definition SoC_in_range (b : batteryStates) : Prop := 0 <= SoC b <= 100 * 256.


(** The quotient [q] clipped to the SoC bounds, case by case. *)
Definition clipped (q : Z) : Z :=
  if q <? 0 then 0 else if 100 * 256 <? q then 100 * 256 else q.

(** ** A sample configuration

    The compiled-in defaults where the header gives them, with 1 ms ticks. *)

Definition example_Config : Config :=
  {| validBlock := 170; enableSend := true; measurementSend := true;
     debugMessageSend := false; recording := false;
     batteryCapacity :=
       [BATTERY_CAPACITY_1; BATTERY_CAPACITY_2; BATTERY_CAPACITY_3];
     batteryType := [BATTERY_TYPE_1; BATTERY_TYPE_2; BATTERY_TYPE_3];
     absorptionVoltage := [3686; 3609; 3686];
     floatVoltage := [3379; 3532; 3379];
     floatStageCurrentScale := [50; 50; 50];
     bulkCurrentLimitScale := [5; 5; 5];
     alphaR := 100; alphaV := 256; alphaC := 180;
     autoTrack := false; panelSwitchSetting := 0; monitorStrategy := 255;
     lowVoltage := LOW_VOLTAGE; criticalVoltage := CRITICAL_VOLTAGE;
     lowSoC := LOW_SOC; criticalSoC := CRITICAL_SOC;
     floatBulkSoC := FLOAT_BULK_SOC;
     chargerStrategy := 0; restTime := REST_TIME;
     absorptionTime := ABSORPTION_TIME; minDutyCycle := MIN_DUTYCYCLE;
     floatTime := FLOAT_DELAY;
     watchdogDelay := WATCHDOG_DELAY 1; chargerDelay := CHARGER_DELAY 1;
     measurementDelay := MEASUREMENT_DELAY 1;
     monitorDelay := MONITOR_DELAY 1;
     calibrationDelay := CALIBRATION_DELAY 1;
     currentOffsets := [2028; 2030; 2025; 2028; 2031; 2027] |}.

(** ** A sample pipeline

    A policy for the examples: the fill state follows the configured
    voltage thresholds, a battery reading below [WEAK_VOLTAGE] with no
    current is missing and one with a negative reading is faulty, battery 0
    carries the load and battery 1 is charged. *)

Definition example_Policy : Policy :=
  {| classifyFill := fun cfg sig i _ =>
       if smoothedVoltage sig i <? criticalVoltage cfg then criticalF
       else if smoothedVoltage sig i <? lowVoltage cfg then lowF
       else normalF;
     classifyHealth := fun _ sig i _ =>
       if smoothedVoltage sig i <? 0 then faultyH
       else if (smoothedVoltage sig i <? WEAK_VOLTAGE)
               && (smoothedCurrent sig i =? 0) then missingH
       else goodH;
     selectRole := fun _ _ i =>
       match i with O => loadedO | S O => chargingO | _ => isolatedO end |}.

Definition example_battery (o : battery_Op_States) (c : Z) : batteryStates :=
  {| currentSteady := 0; fillState := normalF; opState := o;
     healthState := goodH; lastCurrent := 0; lastVoltage := GOOD_VOLTAGE;
     SoC := 50 * 256; charge := c; isolationTime := 0 |}.

Definition example_batteries : list batteryStates :=
  [ example_battery loadedO 1280000;
    example_battery chargingO 7000000;
    example_battery isolatedO (-1000) ].

(** Battery 0 under load loses its voltage reading; the others are fine. *)
Definition example_Signals : Signals :=
  {| smoothedCurrent := fun i => match i with O => 0 | _ => 256 end;
     smoothedVoltage := fun i => match i with O => 100 | _ => 3300 end;
     temperatureReading := 25 |}.

(** ** Macro expansion

    The preprocessor replaces an object-like macro by its tokens and
    rescans the result; the compiler then reads the whole expression with
    C's precedence.  The table holds the macros of the header whose bodies
    are arithmetic written without enclosing parentheses (lines 37, 166,
    188, 189, 211, 214 and 217) and the macros those mention. *)

Inductive token :=
  | TNum (n : Z)
  | TId (name : string)
  | TPlus | TMinus | TStar | TSlash.

Definition macro_table : list (string * list token) :=
  [ ("NUM_BATS", [TNum 3]);
    ("NUM_LOADS", [TNum 2]);
    ("NUM_PANELS", [TNum 1]);
    ("NUM_IFS", [TId "NUM_BATS"; TPlus; TId "NUM_LOADS"; TPlus;
                 TId "NUM_PANELS"]);
    ("TEMPERATURE_SCALE", [TNum 328; TStar; TNum 256]);
    ("LOW_SOC", [TNum 60; TStar; TNum 256]);
    ("CRITICAL_SOC", [TNum 45; TStar; TNum 256]);
    ("FLOAT_BULK_SOC", [TNum 95; TStar; TNum 256]);
    ("REST_SoC", [TNum 70; TStar; TNum 256]);
    ("SoC_HYSTERESIS", [TNum 5; TStar; TNum 256]) ].

Definition macro_body (name : string) : option (list token) :=
  snd <$> find (fun m => bool_decide (m.1 = name)) macro_table.

(** Replacement with rescanning, [depth] levels deep. *)
Fixpoint expand (depth : nat) (ts : list token) : list token :=
  match depth with
  | O => ts
  | S d =>
      flat_map (fun t =>
                  match t with
                  | TId name =>
                      match macro_body name with
                      | Some body => expand d body
                      | None => [t]
                      end
                  | _ => [t]
                  end) ts
  end.

(** The operands of the additive operators, each with its sign. *)
Fixpoint terms (cur : list token) (sign : Z) (ts : list token)
    : list (Z * list token) :=
  match ts with
  | [] => [(sign, rev cur)]
  | TPlus :: rest => (sign, rev cur) :: terms [] 1 rest
  | TMinus :: rest => (sign, rev cur) :: terms [] (-1) rest
  | t :: rest => terms (t :: cur) sign rest
  end.

(** The operands and every intermediate result are C [int]s, 32 bits on
    this target and wrapping as the compiled code does.  A chain of [*] and
    [/] is applied from left to right; the division is C's, truncating,
    and undefined for a zero divisor. *)
Fixpoint eval_chain (acc : Z) (ts : list token) : option Z :=
  match ts with
  | [] => Some acc
  | TStar :: TNum n :: rest => eval_chain (int32 (acc * int32 n)) rest
  | TSlash :: TNum n :: rest =>
      if decide (int32 n = 0) then None
      else eval_chain (int32 (acc ÷ int32 n)) rest
  | _ => None
  end.

Definition eval_term (ts : list token) : option Z :=
  match ts with
  | TNum n :: rest => eval_chain (int32 n) rest
  | _ => None
  end.

Definition eval_tokens (ts : list token) : option Z :=
  foldl (fun acc st =>
           a ← acc; v ← eval_term st.2; Some (int32 (a + st.1 * v)))
    (Some 0) (terms [] 1 ts).

(** The value the compiler gives to an expression of the source. *)
Definition macro_value (ts : list token) : option Z :=
  eval_tokens (expand 2 ts).

(** ** Addresses inside the configuration block *)

(** Address of [config.currentOffsets.data[i]] from the start of the
    [union ConfigGroup]: C's address arithmetic, which does not compare
    [i] with [NUM_IFS]. *)
Definition currentOffsets_entry_addr (target : abi) (i : nat) : option nat :=
  c ← offsetof target union_ConfigGroup "config";
  base ← offsetof target struct_Config "currentOffsets";
  d ← offsetof target union_InterfaceGroup "data";
  Some (c + base + d + i * sizeof target Tint16)%nat.

(** ** Values a member can hold *)

Fixpoint ctype_holds (t : ctype) (v : Z) : Prop :=
  match t with
  | Tbool => 0 <= v <= 1
  | Tuint8 => 0 <= v < 2 ^ 8
  | Tint16 => - 2 ^ 15 <= v < 2 ^ 15
  | Tuint16 => 0 <= v < 2 ^ 16
  | Tint32 => - 2 ^ 31 <= v < 2 ^ 31
  | Tuint32 => 0 <= v < 2 ^ 32
  | Tarray e _ => ctype_holds e v
  | _ => False
  end.

(** The compiled-in default of each configuration member that has one
    ("Values must be initialized in setGlobalDefaults()"), paired by the
    names and comments of the macro and of the member. *)
Definition Config_defaults : list (string * Z) :=
  [ ("batteryCapacity", BATTERY_CAPACITY_1);
    ("batteryCapacity", BATTERY_CAPACITY_2);
    ("batteryCapacity", BATTERY_CAPACITY_3);
    ("lowVoltage", LOW_VOLTAGE);
    ("criticalVoltage", CRITICAL_VOLTAGE);
    ("lowSoC", LOW_SOC);
    ("criticalSoC", CRITICAL_SOC);
    ("floatBulkSoC", FLOAT_BULK_SOC);
    ("restTime", REST_TIME);
    ("absorptionTime", ABSORPTION_TIME);
    ("minDutyCycle", MIN_DUTYCYCLE);
    ("floatTime", FLOAT_DELAY) ].

Definition Config_member_holds (field : string) (v : Z) : Prop :=
  match struct_Config with
  | Tstruct ms =>
      match member_type ms field with
      | Some t => ctype_holds t v
      | None => False
      end
  | _ => False
  end.

(** ** Derivations documented in the header

    The comments above the calibration macros state how each value was
    obtained; the figures are entered as the comments give them. *)

Definition documented_gain (v : board_version) : Q :=
  match v with
  | Version1 => 1803 # 1000
  | Version2 => 1833 # 1000
  | Version3 => 1679 # 1000
  end.

(** "amplifier gain ... times ref voltage 3.3 times 256" *)
Definition documented_VOLTAGE_SCALE (v : board_version) : Q :=
  (documented_gain v * (33 # 10) * 256)%Q.

(** "5 (2 times local ref 2.5V) times the gain ... times 256 times 4096" *)
Definition documented_VOLTAGE_OFFSET (v : board_version) : Q :=
  (5 * documented_gain v * 256 * 4096)%Q.

(** "amplifier gain 10.4 times ref voltage 3.280 times 256" *)
Definition documented_CURRENT_SCALE : Q :=
  ((104 # 10) * (3280 # 1000) * 256)%Q.

(** "Scale is 3.28V over 10mV per degree C times 256." *)
Definition documented_TEMPERATURE_SCALE : Q :=
  ((328 # 100) / (10 # 1000) * 256)%Q.

(** "Offset is 2.732V at 0 degrees C over 3.280 times 4096." *)
Definition documented_TEMPERATURE_OFFSET : Q :=
  ((2732 # 1000) / (3280 # 1000) * 4096)%Q.

Definition Qnearest (q : Q) : Z := Qfloor (q + (1 # 2))%Q.

(** [x] lies within [ppm] parts per million of [q]. *)
Definition within_ppm (ppm : Z) (x : Z) (q : Q) : Prop :=
  (Qabs (inject_Z x - q) * 1000000 <= inject_Z ppm * Qabs q)%Q.

(** * Properties *)

(** ** Compiled-in defaults *)

Lemma x256_volts (tenths : Z) :
  (x256 (volts tenths) == (tenths * 256 # 10))%Q.
Proof. unfold x256, volts, Qeq; simpl; lia. Qed.

Lemma x256_percent (p : Z) : (x256 (percent p) == inject_Z (p * 256))%Q.
Proof. unfold x256, percent, Qeq; simpl; lia. Qed.

(** C3: the good and low voltage thresholds are 13.0 V and 12.0 V times
    256 as documented, but the critical and weak thresholds are not the
    documented 11.5 V and 11.1 V times 256: [CRITICAL_VOLTAGE] is 2995,
    51 counts above 11.5 x 256 = 2944, and [WEAK_VOLTAGE] is 2944, which
    is 11.5 x 256 and lies outside every rounding of 11.1 x 256 = 2841.6. *)
Theorem voltage_thresholds_against_documented_values :
  (inject_Z GOOD_VOLTAGE == x256 (volts 130))%Q
  /\ (inject_Z LOW_VOLTAGE == x256 (volts 120))%Q
  /\ ~ (inject_Z CRITICAL_VOLTAGE == x256 (volts 115))%Q
  /\ (inject_Z CRITICAL_VOLTAGE - x256 (volts 115) == 51)%Q
  /\ ~ (inject_Z WEAK_VOLTAGE == x256 (volts 111))%Q
  /\ ~ (x256_floor (volts 111) <= WEAK_VOLTAGE <= x256_ceiling (volts 111))
  /\ (inject_Z WEAK_VOLTAGE == x256 (volts 115))%Q.
Proof.
  repeat split; try (unfold Qeq; vm_compute; congruence).
  vm_compute. intros [_ H]. apply H. reflexivity.
Qed.

(** C4: every other compiled-in default has the documented value, and
    with a scheduler tick that divides 512 ms (the header assumes 1 ms) the
    watchdog, charger, monitor and measurement tasks run every 512 ms and
    the calibration settles for 4096 ms. *)
Theorem other_defaults_as_documented (portTICK_RATE_MS : Z) :
  0 < portTICK_RATE_MS ->
  (portTICK_RATE_MS | 512) ->
  [BATTERY_CAPACITY_1; BATTERY_CAPACITY_2; BATTERY_CAPACITY_3]
    = [100; 100; 100]
  /\ [BATTERY_TYPE_1; BATTERY_TYPE_2; BATTERY_TYPE_3] = [wetT; gelT; wetT]
  /\ (inject_Z LOW_SOC == x256 (percent 60))%Q
  /\ (inject_Z CRITICAL_SOC == x256 (percent 45))%Q
  /\ REST_TIME = 30
  /\ ABSORPTION_TIME = 90
  /\ MIN_DUTYCYCLE = 256
  /\ FLOAT_DELAY = 7200
  /\ (inject_Z FLOAT_BULK_SOC == x256 (percent 95))%Q
  /\ (inject_Z REST_SoC == x256 (percent 70))%Q
  /\ (inject_Z SoC_HYSTERESIS == x256 (percent 5))%Q
  /\ FLOAT_DELAY_LIMIT = 10
  /\ TEMPERATURE_LIMIT = 45
  /\ period_ms portTICK_RATE_MS (WATCHDOG_DELAY portTICK_RATE_MS) = 512
  /\ period_ms portTICK_RATE_MS (CHARGER_DELAY portTICK_RATE_MS) = 512
  /\ period_ms portTICK_RATE_MS (MONITOR_DELAY portTICK_RATE_MS) = 512
  /\ period_ms portTICK_RATE_MS (MEASUREMENT_DELAY portTICK_RATE_MS) = 512
  /\ period_ms portTICK_RATE_MS (CALIBRATION_DELAY portTICK_RATE_MS) = 4096.
Proof.
  intros Hpos [k Hk].
  assert (H512 : 512 / portTICK_RATE_MS * portTICK_RATE_MS = 512).
  { rewrite Hk, Z.div_mul by lia. reflexivity. }
  assert (H4096 : 4096 / portTICK_RATE_MS * portTICK_RATE_MS = 4096).
  { replace 4096 with (8 * k * portTICK_RATE_MS) by lia.
    rewrite Z.div_mul by lia. reflexivity. }
  unfold period_ms, WATCHDOG_DELAY, CHARGER_DELAY, MONITOR_DELAY,
    MEASUREMENT_DELAY, CALIBRATION_DELAY.
  repeat split; try reflexivity; try assumption;
    rewrite x256_percent; reflexivity.
Qed.

Lemma other_defaults_as_documented_witness :
  period_ms 1 (WATCHDOG_DELAY 1) = 512
  /\ period_ms 1 (CALIBRATION_DELAY 1) = 4096.
Proof.
  assert (Hpos : 0 < 1) by lia.
  assert (Hdiv : (1 | 512)) by (exists 512; reflexivity).
  pose proof (other_defaults_as_documented 1 Hpos Hdiv) as H.
  split; [apply H | apply H].
Defined.

(** ** Enumeration encodings *)

Lemma fill_code_is_severity (a b : battery_Fl_States) :
  battery_Fl_code a < battery_Fl_code b <-> fill_milder a b = true.
Proof. destruct a, b; simpl; split; (discriminate || lia || reflexivity). Qed.

(** C10, as stated, fails: it is not the case that for all pairs of health
    states the integer order differs from the severity order; on the pair
    (goodH, faultyH) the two agree. *)
Lemma health_code_agrees_on_some_pair :
  ~ (forall a b : battery_Hl_States, ~ health_code_agrees a b).
Proof.
  intros H. apply (H goodH faultyH).
  unfold health_code_agrees; simpl. split; [reflexivity | lia].
Qed.

(** C10, amended: the fill-state codes increase strictly with severity
    (normalF=0 < lowF=1 < criticalF=2 < faultyF=3) and comparing them is
    comparing severity; the health-state codes do not: weakH=3 is milder
    than faultyH=1 and missingH=2 yet numerically larger, so the integer
    order is not the severity order, although the two agree on every pair
    that has goodH as its smaller element. *)
Theorem enum_codes_and_severity :
  (battery_Fl_code normalF = 0 /\ battery_Fl_code lowF = 1
   /\ battery_Fl_code criticalF = 2 /\ battery_Fl_code faultyF = 3)
  /\ (forall a b : battery_Fl_States,
        battery_Fl_code a < battery_Fl_code b <-> fill_milder a b = true)
  /\ (battery_Hl_code weakH = 3 /\ battery_Hl_code faultyH = 1
      /\ battery_Hl_code missingH = 2)
  /\ (health_milder weakH faultyH = true
      /\ battery_Hl_code faultyH < battery_Hl_code weakH)
  /\ (health_milder weakH missingH = true
      /\ battery_Hl_code missingH < battery_Hl_code weakH)
  /\ ~ health_code_agrees weakH faultyH
  /\ ~ health_code_agrees weakH missingH
  /\ ~ (forall a b : battery_Hl_States, health_code_agrees a b)
  /\ (forall b : battery_Hl_States, health_code_agrees goodH b).
Proof.
  assert (Hf : ~ health_code_agrees weakH faultyH).
  { unfold health_code_agrees; simpl. intros [_ H].
    specialize (H eq_refl). lia. }
  assert (Hm : ~ health_code_agrees weakH missingH).
  { unfold health_code_agrees; simpl. intros [_ H].
    specialize (H eq_refl). lia. }
  repeat split; try reflexivity; try (simpl; lia); try assumption.
  - apply fill_code_is_severity.
  - apply fill_code_is_severity.
  - intros H. apply Hf, H.
  - destruct b; simpl; (reflexivity || lia).
  - destruct b; simpl; (discriminate || lia).
Qed.

(** ** The configuration record *)

Lemma Config_size_by_target (target : abi) :
  sizeof target struct_Config =
    match short_enums target, use_16_bit_ticks target with
    | true, true => 92
    | true, false => 104
    | false, true => 100
    | false, false => 112
    end%nat.
Proof. destruct target as [[] []]; vm_compute; reflexivity. Qed.

(** C8: [struct Config] declares exactly the fields the specification
    lists, each once: the validity marker, the enable flags, the six
    per-battery arrays of [NUM_BATS] elements, the global factors, flags
    and strategy bitmaps, the thresholds, the timing set, one delay per
    periodic task and the current offsets, one per interface; and for
    every build the record fits the 2048-byte block, whose union has
    exactly that size. *)
Theorem Config_fields_as_specified (target : abi) :
  declared_fields struct_Config ≡ₚ spec_Config_fields
  /\ NoDup (member_names struct_Config)
  /\ length (member_names struct_Config) = 33%nat
  /\ Forall (fun f => f.2 = Some NUM_BATS)
       (filter (fun f => f.1 ∈ spec_per_battery.*1)
          (declared_fields struct_Config))
  /\ (sizeof target struct_Config <= CONFIG_BLOCK_SIZE)%nat
  /\ sizeof target union_ConfigGroup = CONFIG_BLOCK_SIZE.
Proof.
  split; [| split; [| split; [| split; [| split]]]].
  - vm_compute. solve_Permutation.
  - compute_done.
  - reflexivity.
  - compute_done.
  - rewrite Config_size_by_target. unfold CONFIG_BLOCK_SIZE.
    destruct (short_enums target), (use_16_bit_ticks target); lia.
  - destruct target as [[] []]; vm_compute; reflexivity.
Qed.

(** ** The two views of the measured data *)

Lemma int16_wrap (x : Z) : int16 (x mod 2 ^ 16) = int16 x.
Proof.
  unfold int16. f_equal.
  rewrite Zplus_mod_idemp_l. reflexivity.
Qed.

Lemma load_store_int16 (m : list Z) (addr : nat) (v : Z) :
  (S addr < length m)%nat ->
  load_int16 (store_int16 m addr v) addr = Some (int16 v).
Proof.
  intros Hlen. unfold load_int16, store_int16.
  rewrite list_lookup_insert_eq by (rewrite length_insert; lia).
  rewrite list_lookup_insert_ne by lia.
  rewrite list_lookup_insert_eq by lia.
  simpl. f_equal. rewrite <- (int16_wrap v). f_equal.
  change (2 ^ 16) with (256 * 256).
  rewrite Z.rem_mul_r by lia. reflexivity.
Qed.

Lemma data_addr_in_range (target : abi) (i : nat) :
  (i < NUM_IFS)%nat -> data_addr target i = Some (2 * i)%nat.
Proof.
  intros Hi. unfold data_addr. simpl.
  destruct (decide (i < NUM_IFS)%nat); [f_equal; lia | contradiction].
Qed.

Lemma dataArray_addr_in_range (target : abi) (c : Interface_member) :
  Interface_member_valid c ->
  dataArray_addr target c = Some (2 * index_of_member c)%nat.
Proof.
  destruct c as [j | j | j]; unfold Interface_member_valid; intros Hj;
    unfold dataArray_addr; simpl; case_decide; try contradiction;
    f_equal; unfold NUM_BATS, NUM_LOADS; lia.
Qed.

Lemma member_of_index_in_range (i : nat) :
  (i < NUM_IFS)%nat ->
  exists c, member_of_index i = Some c
            /\ Interface_member_valid c /\ index_of_member c = i.
Proof.
  intros Hi. unfold member_of_index.
  repeat case_decide; try contradiction; eexists; (split; [reflexivity |]);
    simpl; unfold NUM_IFS, NUM_BATS, NUM_LOADS, NUM_PANELS in *; lia.
Qed.

Lemma member_of_index_of_member (c : Interface_member) :
  Interface_member_valid c ->
  (index_of_member c < NUM_IFS)%nat
  /\ member_of_index (index_of_member c) = Some c.
Proof.
  destruct c as [j | j | j]; unfold Interface_member_valid; intros Hj;
    unfold member_of_index, index_of_member,
      NUM_IFS, NUM_BATS, NUM_LOADS, NUM_PANELS in *;
    (split; [lia |]); repeat case_decide; try lia; do 2 f_equal; lia.
Qed.

(** C7: [data] and [dataArray] lay the same [NUM_IFS] = 6 [int16_t]
    channels over the same 12 bytes.  Index [i] of the flat view names
    exactly one element of the structured view ([data[0..2]] the batteries,
    [data[3..4]] the loads, [data[5]] the panel, in that order), the two
    designate the same address, so a read through either view returns the
    same value and a value written through one is read back through the
    other. *)
Theorem InterfaceGroup_views_coincide (target : abi) (m : list Z) (i : nat) :
  (i < NUM_IFS)%nat ->
  NUM_IFS = 6%nat
  /\ sizeof target (Tarray Tint16 NUM_IFS) = sizeof target struct_Interface
  /\ sizeof target union_InterfaceGroup = 12%nat
  /\ member_of_index <$> seq 0 NUM_IFS
     = Some <$> [battery 0; battery 1; battery 2; load 0; load 1; panel 0]
  /\ (forall c, Interface_member_valid c ->
        (index_of_member c < NUM_IFS)%nat
        /\ member_of_index (index_of_member c) = Some c)
  /\ exists c,
       member_of_index i = Some c
       /\ Interface_member_valid c
       /\ index_of_member c = i
       /\ data_addr target i = dataArray_addr target c
       /\ read_data target m i = read_dataArray target m c
       /\ (forall v m',
             (sizeof target union_InterfaceGroup <= length m)%nat ->
             write_data target m i v = Some m' ->
             read_dataArray target m' c = Some (int16 v))
       /\ (forall v m',
             (sizeof target union_InterfaceGroup <= length m)%nat ->
             write_dataArray target m c v = Some m' ->
             read_data target m' i = Some (int16 v)).
Proof.
  intros Hi.
  split; [reflexivity |]. split; [reflexivity |]. split; [reflexivity |].
  split; [reflexivity |]. split; [apply member_of_index_of_member |].
  destruct (member_of_index_in_range i Hi) as (c & Hc & Hv & Hidx).
  pose proof (data_addr_in_range target i Hi) as Hd.
  pose proof (dataArray_addr_in_range target c Hv) as Ha.
  rewrite Hidx in Ha.
  assert (Hsz : sizeof target union_InterfaceGroup = 12%nat) by reflexivity.
  exists c. repeat split; try assumption.
  - congruence.
  - unfold read_data, read_dataArray. rewrite Hd, Ha. reflexivity.
  - intros v m' Hlen. unfold write_data, read_dataArray.
    rewrite Hd, Ha. simpl. intros [= <-].
    apply load_store_int16. unfold NUM_IFS, NUM_BATS, NUM_LOADS, NUM_PANELS in Hi.
    rewrite Hsz in Hlen. simpl in Hi. lia.
  - intros v m' Hlen. unfold write_dataArray, read_data.
    rewrite Hd, Ha. simpl. intros [= <-].
    apply load_store_int16. unfold NUM_IFS, NUM_BATS, NUM_LOADS, NUM_PANELS in Hi.
    rewrite Hsz in Hlen. simpl in Hi. lia.
Qed.

Lemma InterfaceGroup_views_coincide_witness :
  read_data {| short_enums := true; use_16_bit_ticks := false |}
    [1; 0; 2; 0; 3; 0; 4; 0; 5; 0; 6; 0] 4
  = read_dataArray {| short_enums := true; use_16_bit_ticks := false |}
      [1; 0; 2; 0; 3; 0; 4; 0; 5; 0; 6; 0] (load 1).
Proof.
  assert (Hi : (4 < NUM_IFS)%nat) by (vm_compute; lia).
  destruct (InterfaceGroup_views_coincide
              {| short_enums := true; use_16_bit_ticks := false |}
              [1; 0; 2; 0; 3; 0; 4; 0; 5; 0; 6; 0] 4 Hi)
    as (_ & _ & _ & _ & _ & c & Hc & _ & _ & _ & Hr & _).
  vm_compute in Hc. injection Hc as <-. exact Hr.
Defined.

(** ** Calibration conversion *)

Lemma scale_sample_div (offset scale raw : Z) :
  scale_sample offset scale raw = (raw - offset) * scale / 4096.
Proof. unfold scale_sample. rewrite Z.shiftr_div_pow2 by lia. reflexivity. Qed.


Lemma scale_sample_mono (offset scale r1 r2 : Z) :
  0 <= scale -> r1 <= r2 ->
  scale_sample offset scale r1 <= scale_sample offset scale r2.
Proof.
  intros Hs Hr. rewrite !scale_sample_div.
  apply Z.div_le_mono; [lia |].
  apply Z.mul_le_mono_nonneg_r; lia.
Qed.

Lemma channel_params_scale_pos (v : board_version) (cfg : Config)
    (ch : channel) (p : Z * Z) :
  channel_params v cfg ch = Some p -> 0 < p.2.
Proof.
  unfold channel_params.
  destruct (chClass ch); [destruct (getCurrentOffset _ _) | |];
    simpl; intros [= <-]; simpl; [reflexivity | destruct v; reflexivity
                                 | reflexivity].
Qed.

(** With 12-bit samples and an [int16_t] offset the current product and its
    result stay inside [int32_t], so the integer formula is also what
    32-bit arithmetic computes for the current channels. *)
Lemma current_conversion_fits_int32 (offset raw : Z) :
  in_int16 offset -> 0 <= raw < 4096 ->
  int32 ((raw - offset) * CURRENT_SCALE) = (raw - offset) * CURRENT_SCALE
  /\ int32 (scale_sample offset CURRENT_SCALE raw)
     = scale_sample offset CURRENT_SCALE raw.
Proof.
  unfold in_int16, CURRENT_SCALE. intros Ho Hr.
  assert (Hp : - 2 ^ 31 <= (raw - offset) * 8373 < 2 ^ 31) by lia.
  assert (Hq : - 2 ^ 31 <= scale_sample offset 8373 raw < 2 ^ 31).
  { rewrite scale_sample_div. split.
    - apply Z.div_le_lower_bound; lia.
    - apply Z.div_lt_upper_bound; lia. }
  unfold int32. split.
  - rewrite Z.mod_small by lia. lia.
  - rewrite Z.mod_small by lia. lia.
Qed.

Lemma int32_shift (x k : Z) :
  - 2 ^ 31 <= x + k * 2 ^ 32 < 2 ^ 31 -> int32 x = x + k * 2 ^ 32.
Proof.
  intros H. unfold int32.
  replace (x + 2 ^ 31) with (x + k * 2 ^ 32 + 2 ^ 31 + (- k) * 2 ^ 32) by lia.
  rewrite Z_mod_plus_full, Z.mod_small by lia. lia.
Qed.

Lemma shiftr_12_mono (a b : Z) : a <= b -> Z.shiftr a 12 <= Z.shiftr b 12.
Proof.
  intros H. rewrite !Z.shiftr_div_pow2 by lia. apply Z.div_le_mono; lia.
Qed.

(** The specification's formula stays monotonic on converter readings when
    the product is an [int32_t] that wraps: for the current and temperature
    pairs it never leaves the range, and for the voltage pairs it wraps by
    the same multiple of 2^32 over the whole range of readings. *)
Lemma scale_sample32_mono_adc (offset scale r1 r2 : Z) :
  (scale = CURRENT_SCALE /\ in_int16 offset)
  \/ (exists v, offset = VOLTAGE_OFFSET v /\ scale = VOLTAGE_SCALE v)
  \/ (offset = TEMPERATURE_OFFSET /\ scale = TEMPERATURE_SCALE) ->
  adc_sample r1 -> adc_sample r2 -> r1 <= r2 ->
  scale_sample32 offset scale r1 <= scale_sample32 offset scale r2.
Proof.
  unfold adc_sample, scale_sample32, in_int16.
  intros Hclass H1 H2 Hle. apply shiftr_12_mono.
  destruct Hclass as [[-> Ho] | [[v [-> ->]] | [-> ->]]].
  - unfold CURRENT_SCALE.
    rewrite (int32_shift ((r1 - offset) * 8373) 0) by lia.
    rewrite (int32_shift ((r2 - offset) * 8373) 0) by lia. lia.
  - destruct v; simpl.
    + rewrite (int32_shift ((r1 - 9453071) * 1523) 3) by lia.
      rewrite (int32_shift ((r2 - 9453071) * 1523) 3) by lia. lia.
    + rewrite (int32_shift ((r1 - 9611946) * 1548) 3) by lia.
      rewrite (int32_shift ((r2 - 9611946) * 1548) 3) by lia. lia.
    + rewrite (int32_shift ((r1 - 10565197) * 1418) 3) by lia.
      rewrite (int32_shift ((r2 - 10565197) * 1418) 3) by lia. lia.
  - unfold TEMPERATURE_OFFSET, TEMPERATURE_SCALE.
    rewrite (int32_shift ((r1 - 3412) * (328 * 256)) 0) by lia.
    rewrite (int32_shift ((r2 - 3412) * (328 * 256)) 0) by lia. lia.
Qed.

(** Applied to the voltage constants, whose offset the header derives as
    "times 256 times 4096", the formula yields a value below the range of
    the [int16_t lastVoltage] for every converter reading. *)
Remark voltage_pair_under_the_formula (v : board_version) (raw : Z) :
  adc_sample raw ->
  scale_sample (VOLTAGE_OFFSET v) (VOLTAGE_SCALE v) raw < - 2 ^ 15.
Proof.
  unfold adc_sample. intros Hr. rewrite scale_sample_div.
  apply Z.div_lt_upper_bound; [lia |]. destruct v; simpl; lia.
Qed.

Lemma scale_then_offset_mono (offset scale r1 r2 : Z) :
  0 <= scale -> r1 <= r2 ->
  scale_then_offset offset scale r1 <= scale_then_offset offset scale r2.
Proof.
  intros Hs Hr. unfold scale_then_offset. apply shiftr_12_mono.
  apply Z.add_le_mono_r, Z.mul_le_mono_nonneg_r; lia.
Qed.





(** C6: for the (offset, scale) pair of any current, voltage or temperature
    channel, a larger raw sample never converts to a smaller value; this
    holds as well when the pair is applied by the specification's formula
    on every channel. *)
Theorem convert_monotonic (v : board_version) (cfg : Config) (ch : channel)
    (p : Z * Z) (r1 r2 : Z) :
  channel_params v cfg ch = Some p ->
  r1 <= r2 ->
  (exists y1 y2,
     convert v cfg ch r1 = Some y1
     /\ convert v cfg ch r2 = Some y2
     /\ y1 <= y2)
  /\ scale_sample p.1 p.2 r1 <= scale_sample p.1 p.2 r2.
Proof.
  intros Hp Hr.
  pose proof (channel_params_scale_pos v cfg ch p Hp) as Hpos.
  split; [| apply scale_sample_mono; lia].
  unfold convert. rewrite Hp. simpl.
  eexists _, _. split; [reflexivity |]. split; [reflexivity |].
  destruct (chClass ch).
  - apply scale_sample_mono; lia.
  - apply scale_then_offset_mono; lia.
  - apply scale_sample_mono; lia.
Qed.

Lemma convert_monotonic_witness :
  exists y1 y2,
    convert Version3 example_Config
      {| chClass := temperatureClass; chInterface := 0 |} 3400 = Some y1
    /\ convert Version3 example_Config
         {| chClass := temperatureClass; chInterface := 0 |} 3500 = Some y2
    /\ y1 <= y2.
Proof.
  apply (convert_monotonic Version3 example_Config
           {| chClass := temperatureClass; chInterface := 0 |}
           (TEMPERATURE_OFFSET, TEMPERATURE_SCALE) 3400 3500).
  - reflexivity.
  - lia.
Defined.

(** ** Runtime calibration *)

Lemma int16_small (x : Z) : in_int16 x -> int16 x = x.
Proof.
  unfold in_int16, int16. intros H. rewrite Z.mod_small by lia. lia.
Qed.

(** C9, as stated, fails on one point: the temperature offset and scale
    are not selected by [VERSION]; every board revision compiles in the
    same pair. *)
Lemma temperature_pair_same_for_every_VERSION :
  ~ selected_by_VERSION temperature_pair.
Proof. intros (v1 & v2 & Hne). apply Hne. reflexivity. Qed.

(** C9, amended: [setCurrentOffset] changes the entry of its interface in
    the configuration's [currentOffsets] table and nothing else, and
    [getCurrentOffset] reads it back; the voltage offset and scale are
    compile-time constants selected by [VERSION], the temperature offset
    and scale are compile-time constants common to all revisions; neither
    pair is held in the configuration (no field and no setter mentions a
    calibration parameter other than the current offsets), so whatever an
    operation does to the configuration, the voltage and temperature pairs
    and the current scale stay the compiled-in constants. *)
Theorem only_current_offsets_are_mutable (v : board_version) (cfg : Config)
    (i j : nat) (offset : Z) :
  (i < length (currentOffsets cfg))%nat ->
  in_int16 offset ->
  getCurrentOffset (setCurrentOffset cfg i offset) i = Some offset
  /\ (j <> i ->
      getCurrentOffset (setCurrentOffset cfg i offset) j
      = getCurrentOffset cfg j)
  /\ length (currentOffsets (setCurrentOffset cfg i offset))
     = length (currentOffsets cfg)
  /\ with_currentOffsets (setCurrentOffset cfg i offset) (currentOffsets cfg)
     = with_currentOffsets cfg (currentOffsets cfg)
  /\ (selected_by_VERSION VOLTAGE_OFFSET /\ selected_by_VERSION VOLTAGE_SCALE)
  /\ (forall v1 v2, temperature_pair v1 = temperature_pair v2)
  /\ (forall (operation : Config -> Config) (ch : channel),
        chClass ch <> currentClass ->
        channel_params v (operation cfg) ch = channel_params v cfg ch)
  /\ (forall (operation : Config -> Config) (k : nat),
        channel_params v (operation cfg)
          {| chClass := voltageClass; chInterface := k |}
        = Some (VOLTAGE_OFFSET v, VOLTAGE_SCALE v)
        /\ channel_params v (operation cfg)
             {| chClass := temperatureClass; chInterface := k |}
           = Some (TEMPERATURE_OFFSET, TEMPERATURE_SCALE))
  /\ (forall (operation : Config -> Config) (ch : channel) (p : Z * Z),
        chClass ch = currentClass ->
        channel_params v (operation cfg) ch = Some p -> p.2 = CURRENT_SCALE)
  /\ filter (fun n => mentions "Offset" n || mentions "Scale" n)
       (member_names struct_Config)
     = ["floatStageCurrentScale"; "bulkCurrentLimitScale"; "currentOffsets"]
  /\ setters = ["setGlobalDefaults"; "setBatteryChargeParameters";
                "setCurrentOffset"; "setPanelSwitchSetting"]
  /\ filter (fun n => mentions "Offset" n || mentions "Scale" n) setters
     = ["setCurrentOffset"].
Proof.
  intros Hi Hoff.
  split; [| split; [| split; [| split; [| split; [| split;
    [| split; [| split; [| split]]]]]]]].
  - unfold getCurrentOffset, setCurrentOffset. simpl.
    rewrite list_lookup_insert_eq by assumption.
    rewrite int16_small by assumption. reflexivity.
  - intros Hne. unfold getCurrentOffset, setCurrentOffset. simpl.
    apply list_lookup_insert_ne. congruence.
  - unfold setCurrentOffset. simpl. apply length_insert.
  - reflexivity.
  - split; exists Version1, Version2; discriminate.
  - reflexivity.
  - intros operation ch Hch. unfold channel_params.
    destruct (chClass ch); [contradiction | reflexivity | reflexivity].
  - intros operation k. split; reflexivity.
  - intros operation ch p Hch. unfold channel_params. rewrite Hch.
    destruct (getCurrentOffset _ _); simpl; intros [= <-]. reflexivity.
  - repeat split; vm_compute; reflexivity.
Qed.

Lemma only_current_offsets_are_mutable_witness :
  getCurrentOffset (setCurrentOffset example_Config 4 (-17)) 4 = Some (-17)
  /\ getCurrentOffset (setCurrentOffset example_Config 4 (-17)) 5
     = Some 2027.
Proof.
  assert (Hi : (4 < length (currentOffsets example_Config))%nat)
    by (vm_compute; lia).
  assert (Hoff : in_int16 (-17)) by (unfold in_int16; lia).
  destruct (only_current_offsets_are_mutable Version1 example_Config 4 5
              (-17) Hi Hoff) as (Hget & Hother & _).
  split; [exact Hget |].
  rewrite Hother by lia. reflexivity.
Defined.

(** ** The per-tick pipeline *)

Lemma clamp_clipped (q : Z) : clamp q 0 SoC_MAX = clipped q.
Proof.
  unfold clamp, clipped, SoC_MAX.
  destruct (Z.ltb_spec q 0), (Z.ltb_spec (100 * 256) q); lia.
Qed.

Lemma clipped_range (q : Z) : 0 <= clipped q <= 100 * 256.
Proof.
  unfold clipped.
  destruct (Z.ltb_spec q 0), (Z.ltb_spec (100 * 256) q); lia.
Qed.

Lemma updateSoC_SoC (capacity dt current : Z) (b : batteryStates) :
  SoC (updateSoC capacity dt current b)
  = clipped (int32 (charge b + current * dt) ÷ capacity).
Proof.
  unfold updateSoC. simpl. rewrite clamp_clipped.
  pose proof (clipped_range (int32 (charge b + current * dt) ÷ capacity)).
  unfold uint16. apply Z.mod_small. lia.
Qed.

Lemma Forall_imap {A B : Type} (P : B -> Prop) (f : nat -> A -> B)
    (l : list A) :
  (forall i x, l !! i = Some x -> P (f i x)) -> Forall P (imap f l).
Proof.
  intros H. apply Forall_lookup_2. intros i y.
  rewrite list_lookup_imap. destruct (l !! i) as [x |] eqn:Hx; simpl;
    intros [= <-]. apply (H i x Hx).
Qed.

Section PipelineProperties.
Context `{Policy}.

Lemma estimateBattery_SoC (cfg : Config) (sig : Signals) (i : nat)
    (b : batteryStates) :
  SoC (estimateBattery cfg sig i b)
  = clipped (int32 (charge b + smoothedCurrent sig i * measurementDelay cfg)
             ÷ getBatteryCapacity cfg i).
Proof.
  unfold estimateBattery. case_decide; simpl;
    rewrite <- updateSoC_SoC; reflexivity.
Qed.

Lemma estimateBattery_charge (cfg : Config) (sig : Signals) (i : nat)
    (b : batteryStates) :
  charge (estimateBattery cfg sig i b)
  = int32 (charge b + smoothedCurrent sig i * measurementDelay cfg).
Proof. unfold estimateBattery. case_decide; reflexivity. Qed.

Lemma estimator_SoC_in_range (cfg : Config) (sig : Signals)
    (bs : list batteryStates) :
  Forall SoC_in_range (BatteryStateEstimator cfg sig bs).
Proof.
  apply Forall_imap. intros i b _. unfold SoC_in_range.
  rewrite estimateBattery_SoC. apply clipped_range.
Qed.

Lemma hardFault_step_SoC (sig : Signals) (b : batteryStates) :
  SoC (if hardFault sig b then with_opState b isolatedO else b) = SoC b.
Proof. destruct (hardFault sig b); reflexivity. Qed.


Lemma allocateBattery_SoC (cfg : Config) (bs : list batteryStates)
    (i : nat) (b : batteryStates) :
  SoC (allocateBattery cfg bs i b) = SoC b.
Proof.
  unfold allocateBattery.
  destruct (unhealthy b), (autoTrack cfg); reflexivity.
Qed.






Lemma tick_lookup (cfg : Config) (bs : list batteryStates) (sig : Signals)
    (i : nat) :
  tick cfg bs sig !! i
  = (fun b0 =>
       let b1 := estimateBattery cfg sig i b0 in
       let b2 := if hardFault sig b1 then with_opState b1 isolatedO
                 else b1 in
       allocateBattery cfg
         (ChargeStageController cfg sig (BatteryStateEstimator cfg sig bs))
         i b2) <$> bs !! i.
Proof.
  unfold tick, AllocationManager, ChargeStageController,
    BatteryStateEstimator.
  rewrite list_lookup_imap, list_lookup_fmap, list_lookup_imap.
  destruct (bs !! i); reflexivity.
Qed.

Lemma tick_SoC_in_range (cfg : Config) (bs : list batteryStates)
    (sig : Signals) :
  Forall SoC_in_range (tick cfg bs sig).
Proof.
  apply Forall_lookup_2. intros i b. rewrite tick_lookup.
  destruct (bs !! i) as [b0 |]; simpl; intros [= <-].
  unfold SoC_in_range.
  rewrite allocateBattery_SoC, hardFault_step_SoC, estimateBattery_SoC.
  apply clipped_range.
Qed.




(** C1: after the estimator's update the stored SoC of every battery lies
    in [0, 100 x 256], whatever the current and the previous state: the
    stored value is the quotient of the accumulated charge by the
    capacity when that lies in the range, 0 when it is below and
    100 x 256 when it is above, never a value reduced modulo 2^16; the
    bounds still hold at the end of the tick and after every run of one
    or more ticks. *)
Theorem SoC_clamped_every_tick (cfg : Config) (bs : list batteryStates)
    (sigs : list Signals) (sig : Signals) (i : nat) :
  Forall SoC_in_range (BatteryStateEstimator cfg sig bs)
  /\ SoC <$> (BatteryStateEstimator cfg sig bs !! i)
     = (fun b0 =>
          clipped
            (int32 (charge b0 + smoothedCurrent sig i * measurementDelay cfg)
             ÷ getBatteryCapacity cfg i)) <$> (bs !! i)
  /\ length (BatteryStateEstimator cfg sig bs) = length bs
  /\ Forall SoC_in_range (tick cfg bs sig)
  /\ Forall SoC_in_range (run cfg bs (sigs ++ [sig])).
Proof.
  split; [apply estimator_SoC_in_range |].
  split; [| split; [apply length_imap |]].
  - unfold BatteryStateEstimator. rewrite list_lookup_imap.
    destruct (bs !! i); simpl; [| reflexivity].
    rewrite estimateBattery_SoC. reflexivity.
  - split; [apply tick_SoC_in_range |].
    unfold run. rewrite foldl_snoc. apply tick_SoC_in_range.
Qed.

End PipelineProperties.

(** ** Worked examples *)

(** A quotient of 70000 is stored as 25600, not as 70000 mod 2^16 = 4464. *)
Example SoC_clipped_not_wrapped :
  SoC (updateSoC 100 512 0 (example_battery chargingO 7000000)) = 25600
  /\ uint16 (7000000 ÷ 100) = 4464.
Proof. split; reflexivity. Qed.

Example SoC_clipped_at_zero :
  SoC (updateSoC 100 512 (-256) (example_battery loadedO 1000)) = 0.
Proof. reflexivity. Qed.

Example SoC_in_range_kept :
  SoC (updateSoC 100 512 0 (example_battery loadedO 1280000)) = 50 * 256.
Proof. reflexivity. Qed.

(** With [autoTrack] off, the loaded battery 0 is classified missing in this
    tick and leaves it still loaded; the other two keep their assignment. *)
Example missing_battery_without_tracking :
  (fun b => (healthState b, opState b))
    <$> @tick example_Policy example_Config example_batteries example_Signals
  = [ (missingH, loadedO); (goodH, chargingO); (goodH, isolatedO) ].
Proof. reflexivity. Qed.


Example SoC_after_example_tick :
  SoC <$> @tick example_Policy example_Config example_batteries example_Signals
  = [12800; 25600; 1300].
Proof. reflexivity. Qed.

Example current_sample_converted :
  convert Version3 example_Config
    {| chClass := currentClass; chInterface := 0 |} 3000 = Some 1986
  /\ convert Version3 example_Config
       {| chClass := currentClass; chInterface := 0 |} 1000 = Some (-2102).
Proof. split; reflexivity. Qed.

Example Interface_offsets :
  offsetof {| short_enums := false; use_16_bit_ticks := false |}
    struct_Interface <$> ["battery"; "load"; "panel"]
  = [Some 0; Some 6; Some 10]%nat.
Proof. reflexivity. Qed.

(** * Further properties of the header *)

(** ** Task pacing under integer division *)

Lemma div_mul_bounds (n t : Z) :
  0 < t -> n - t < n / t * t <= n /\ (n / t * t = n <-> (t | n)).
Proof.
  intros Ht.
  pose proof (Z.div_mod n t ltac:(lia)) as Hdm.
  pose proof (Z.mod_pos_bound n t Ht) as Hm.
  split; [lia |]. rewrite <- Z.mod_divide by lia. lia.
Qed.

(** X1: the delays are whole scheduler ticks, so for a tick of [t] ms a
    task's period is the largest multiple of [t] not above 512 ms (4096 ms
    for the calibration delay); it is the nominal value exactly when [t]
    divides it, and the delay is zero ticks once the tick exceeds 512 ms. *)
Theorem task_period_under_integer_division (t : Z) :
  0 < t ->
  Forall (fun ticks =>
            512 - t < period_ms t ticks <= 512
            /\ (period_ms t ticks = 512 <-> (t | 512))
            /\ (512 < t -> ticks = 0)
            /\ (t <= 512 -> 0 < ticks))
    [WATCHDOG_DELAY t; CHARGER_DELAY t; MONITOR_DELAY t; MEASUREMENT_DELAY t]
  /\ 4096 - t < period_ms t (CALIBRATION_DELAY t) <= 4096
  /\ (period_ms t (CALIBRATION_DELAY t) = 4096 <-> (t | 4096)).
Proof.
  intros Ht.
  assert (H512 : 512 - t < period_ms t (512 / t) <= 512
                 /\ (period_ms t (512 / t) = 512 <-> (t | 512))
                 /\ (512 < t -> 512 / t = 0)
                 /\ (t <= 512 -> 0 < 512 / t)).
  { unfold period_ms. destruct (div_mul_bounds 512 t Ht) as [Hb Hd].
    split; [exact Hb |]. split; [exact Hd |]. split.
    - intros Hgt. apply Z.div_small. lia.
    - intros Hle. apply Z.div_str_pos. lia. }
  split; [repeat (apply Forall_cons_2; [exact H512 |]); apply Forall_nil_2 |].
  unfold period_ms, CALIBRATION_DELAY. apply div_mul_bounds, Ht.
Qed.

Lemma task_period_under_integer_division_witness :
  period_ms 10 (MEASUREMENT_DELAY 10) = 510
  /\ 4096 - 10 < period_ms 10 (CALIBRATION_DELAY 10) <= 4096.
Proof.
  assert (Ht : 0 < 10) by lia.
  destruct (task_period_under_integer_division 10 Ht) as (_ & Hc & _).
  split; [reflexivity | exact Hc].
Defined.

(** X2: the calibration settling delay lasts at least eight measurement
    delays and less than eight plus eight ticks, whatever the tick
    length. *)
Theorem calibration_delay_covers_eight_measurements (t : Z) :
  0 < t ->
  8 * MEASUREMENT_DELAY t <= CALIBRATION_DELAY t < 8 * MEASUREMENT_DELAY t + 8.
Proof.
  intros Ht. unfold MEASUREMENT_DELAY, CALIBRATION_DELAY.
  pose proof (Z.div_mod 512 t ltac:(lia)) as Hdm.
  pose proof (Z.mod_pos_bound 512 t Ht) as Hm.
  split.
  - apply Z.div_le_lower_bound; lia.
  - apply Z.div_lt_upper_bound; lia.
Qed.

Lemma calibration_delay_covers_eight_measurements_witness :
  8 * MEASUREMENT_DELAY 10 <= CALIBRATION_DELAY 10
  < 8 * MEASUREMENT_DELAY 10 + 8.
Proof.
  apply (calibration_delay_covers_eight_measurements 10). lia.
Defined.

(** ** Enumeration encodings *)

(** X3: in each of the five enumerations the enumerators have distinct
    values and these are exactly 0 .. n-1, so a stored value identifies its
    enumerator and every enumeration fits a byte. *)
Theorem enum_codes_distinct_and_contiguous :
  ((forall a b, battery_Type_code a = battery_Type_code b -> a = b)
   /\ forall k, 0 <= k < 3 <-> exists a, battery_Type_code a = k)
  /\ ((forall a b, battery_Fl_code a = battery_Fl_code b -> a = b)
      /\ forall k, 0 <= k < 4 <-> exists a, battery_Fl_code a = k)
  /\ ((forall a b, battery_Op_code a = battery_Op_code b -> a = b)
      /\ forall k, 0 <= k < 3 <-> exists a, battery_Op_code a = k)
  /\ ((forall a b, battery_Ch_code a = battery_Ch_code b -> a = b)
      /\ forall k, 0 <= k < 5 <-> exists a, battery_Ch_code a = k)
  /\ ((forall a b, battery_Hl_code a = battery_Hl_code b -> a = b)
      /\ forall k, 0 <= k < 4 <-> exists a, battery_Hl_code a = k).
Proof.
  assert (Hcases : forall k, 0 <= k < 5 ->
            k = 0 \/ k = 1 \/ k = 2 \/ k = 3 \/ k = 4) by (intros; lia).
  split; [| split; [| split; [| split]]]; (split;
    [ intros a b; destruct a, b; simpl; intros Heq;
      first [reflexivity | discriminate Heq]
    | intros k; split;
      [ intros Hk; destruct (Hcases k ltac:(lia))
          as [-> | [-> | [-> | [-> | ->]]]]; try lia
      | intros [a <-]; destruct a; simpl; lia ] ]).
  - exists wetT; reflexivity.
  - exists gelT; reflexivity.
  - exists agmT; reflexivity.
  - exists normalF; reflexivity.
  - exists lowF; reflexivity.
  - exists criticalF; reflexivity.
  - exists faultyF; reflexivity.
  - exists loadedO; reflexivity.
  - exists chargingO; reflexivity.
  - exists isolatedO; reflexivity.
  - exists bulkC; reflexivity.
  - exists absorptionC; reflexivity.
  - exists floatC; reflexivity.
  - exists restC; reflexivity.
  - exists equalizationC; reflexivity.
  - exists goodH; reflexivity.
  - exists faultyH; reflexivity.
  - exists missingH; reflexivity.
  - exists weakH; reflexivity.
Qed.

(** ** Macros written without parentheses *)

Lemma int32_in_range (x : Z) : - 2 ^ 31 <= x < 2 ^ 31 -> int32 x = x.
Proof. intros H. unfold int32. rewrite Z.mod_small by lia. lia. Qed.

(** Removes the wrap from the innermost results that stay in range. *)
Ltac int32_in_range_with tac :=
  repeat match goal with
  | |- context [int32 ?x] =>
      lazymatch x with
      | context [int32 _] => fail
      | _ => rewrite (int32_in_range x) by tac
      end
  end.

Ltac expand_macros :=
  unfold macro_value;
  repeat match goal with
  | |- context [expand ?d ?ts] =>
      let e := eval vm_compute in (expand d ts) in
      change (expand d ts) with e
  end;
  unfold eval_tokens;
  cbn [terms rev app foldl eval_term eval_chain fst snd mbind option_bind];
  int32_in_range_with lia;
  repeat (rewrite decide_False by lia);
  cbn [mbind option_bind];
  int32_in_range_with lia.

(** X4: [NUM_IFS] and the times-256 defaults expand to unparenthesised
    arithmetic, evaluated as C [int]s.  For an operand [k] small enough
    that nothing overflows (up to 2^14 either way): alone, or next to [+],
    each macro has its intended value, and the product macros also survive
    a multiplication on their left and a subtraction; but [k * NUM_IFS] is
    3k + 3 (it is 6k only for k = 1), [k - NUM_IFS] is k, and dividing by
    a times-256 macro divides by its first factor and multiplies by 256.
    A product that leaves the [int] range wraps: 100000 *
    TEMPERATURE_SCALE is -193134592. *)
Theorem unparenthesised_macros_in_context (k : Z) :
  - 2 ^ 14 <= k <= 2 ^ 14 ->
  macro_value [TId "NUM_IFS"] = Some (Z.of_nat NUM_IFS)
  /\ macro_value [TNum k; TPlus; TId "NUM_IFS"]
     = Some (k + Z.of_nat NUM_IFS)
  /\ macro_value [TNum k; TStar; TId "NUM_IFS"] = Some (k * 3 + 3)
  /\ (macro_value [TNum k; TStar; TId "NUM_IFS"]
      = Some (k * Z.of_nat NUM_IFS) <-> k = 1)
  /\ macro_value [TId "NUM_IFS"; TStar; TNum k] = Some (5 + k)
  /\ macro_value [TNum k; TMinus; TId "NUM_IFS"] = Some k
  /\ Forall (fun m =>
               macro_value [TId m.1] = Some m.2
               /\ macro_value [TNum k; TStar; TId m.1] = Some (k * m.2)
               /\ macro_value [TNum k; TPlus; TId m.1] = Some (k + m.2)
               /\ macro_value [TNum k; TMinus; TId m.1] = Some (k - m.2)
               /\ macro_value [TNum k; TSlash; TId m.1]
                  = Some (k ÷ (m.2 / 256) * 256))
       [ ("TEMPERATURE_SCALE", TEMPERATURE_SCALE); ("LOW_SOC", LOW_SOC);
         ("CRITICAL_SOC", CRITICAL_SOC); ("FLOAT_BULK_SOC", FLOAT_BULK_SOC);
         ("REST_SoC", REST_SoC); ("SoC_HYSTERESIS", SoC_HYSTERESIS) ]
  /\ macro_value [TNum LOW_SOC; TSlash; TId "LOW_SOC"] = Some 65536
  /\ macro_value [TNum 100000; TStar; TId "TEMPERATURE_SCALE"]
     = Some (-193134592).
Proof.
  intros Hk.
  assert (Hmul : macro_value [TNum k; TStar; TId "NUM_IFS"]
                 = Some (k * 3 + 3)).
  { expand_macros. f_equal. lia. }
  change (Z.of_nat NUM_IFS) with 6.
  split; [reflexivity |].
  split; [expand_macros; f_equal; lia |].
  split; [exact Hmul |].
  split; [rewrite Hmul; split;
          [intros [= H]; lia | intros ->; reflexivity] |].
  split; [expand_macros; f_equal; lia |].
  split; [expand_macros; f_equal; lia |].
  split; [| split; reflexivity].
  assert (Hprod : forall name a,
            macro_body name = Some [TNum a; TStar; TNum 256] ->
            0 < a <= 328 ->
            macro_value [TId name] = Some (a * 256)
            /\ macro_value [TNum k; TStar; TId name] = Some (k * (a * 256))
            /\ macro_value [TNum k; TPlus; TId name] = Some (k + a * 256)
            /\ macro_value [TNum k; TMinus; TId name] = Some (k - a * 256)
            /\ macro_value [TNum k; TSlash; TId name] = Some (k ÷ a * 256)).
  { intros name a Hbody Ha.
    assert (Hq : - 2 ^ 14 <= k ÷ a <= 2 ^ 14).
    { pose proof (Z.quot_pos k a) as Hp1.
      pose proof (Z.quot_le_upper_bound k a (2 ^ 14)) as Hp2.
      pose proof (Z.quot_opp_l k a ltac:(lia)) as Ho.
      pose proof (Z.quot_le_upper_bound (- k) a (2 ^ 14)) as Hp3.
      destruct (Z.le_gt_cases 0 k) as [Hnn | Hneg].
      - split; [specialize (Hp1 Hnn ltac:(lia)); lia |].
        apply Hp2; [lia | nia].
      - split; [| pose proof (Z.quot_pos (- k) a ltac:(lia) ltac:(lia)); lia].
        specialize (Hp3 ltac:(lia) ltac:(nia)). lia. }
    unfold macro_value, expand. cbn [flat_map app].
    rewrite Hbody. unfold eval_tokens.
    cbn [flat_map app terms rev foldl eval_term eval_chain fst snd
         mbind option_bind].
    int32_in_range_with nia.
    repeat (rewrite decide_False by lia).
    cbn [mbind option_bind].
    int32_in_range_with nia.
    repeat split; f_equal; lia. }
  apply Forall_cons_2;
    [exact (Hprod "TEMPERATURE_SCALE" 328 eq_refl ltac:(lia)) |].
  apply Forall_cons_2; [exact (Hprod "LOW_SOC" 60 eq_refl ltac:(lia)) |].
  apply Forall_cons_2; [exact (Hprod "CRITICAL_SOC" 45 eq_refl ltac:(lia)) |].
  apply Forall_cons_2;
    [exact (Hprod "FLOAT_BULK_SOC" 95 eq_refl ltac:(lia)) |].
  apply Forall_cons_2; [exact (Hprod "REST_SoC" 70 eq_refl ltac:(lia)) |].
  apply Forall_cons_2;
    [exact (Hprod "SoC_HYSTERESIS" 5 eq_refl ltac:(lia)) |].
  apply Forall_nil_2.
Qed.

Lemma unparenthesised_macros_in_context_witness :
  macro_value [TNum 2; TStar; TId "NUM_IFS"] = Some (2 * 3 + 3)
  /\ macro_value [TNum 2; TMinus; TId "NUM_IFS"] = Some 2.
Proof.
  assert (Hk : - 2 ^ 14 <= 2 <= 2 ^ 14) by lia.
  destruct (unparenthesised_macros_in_context 2 Hk)
    as (_ & _ & Hmul & _ & _ & Hsub & _).
  split; [exact Hmul | exact Hsub].
Defined.

(** ** The current offsets inside the configuration block *)

Lemma currentOffsets_entry_addr_by_target (target : abi) (i : nat) :
  currentOffsets_entry_addr target i
  = Some (match short_enums target, use_16_bit_ticks target with
          | true, true => 80
          | true, false => 92
          | false, true => 88
          | false, false => 100
          end + 2 * i)%nat.
Proof.
  destruct target as [[] []]; unfold currentOffsets_entry_addr;
    repeat match goal with
    | |- context [offsetof ?t ?s ?n] =>
        let e := eval vm_compute in (offsetof t s n) in
        change (offsetof t s n) with e
    end;
    change (sizeof _ Tint16) with 2%nat;
    cbn [mbind option_bind short_enums use_16_bit_ticks]; f_equal; lia.
Qed.

(** X5: [currentOffsets] is the last member of [struct Config], so for
    every build the entry [currentOffsets.data[i]] lies inside the record
    when [i < NUM_IFS], and for every other index a [uint8_t] can carry it
    lies past the record but still inside the 2048-byte block: an index
    out of range reaches no other configuration member and no memory
    outside the block. *)
Theorem currentOffsets_entry_stays_in_block (target : abi) (i : nat) :
  (i < 256)%nat ->
  exists a,
    currentOffsets_entry_addr target i = Some a
    /\ (a + sizeof target Tint16 <= CONFIG_BLOCK_SIZE)%nat
    /\ ((i < NUM_IFS)%nat ->
        (a + sizeof target Tint16 <= sizeof target struct_Config)%nat)
    /\ ((NUM_IFS <= i)%nat -> (sizeof target struct_Config <= a)%nat)
    /\ (i = (NUM_IFS - 1)%nat ->
        (a + sizeof target Tint16)%nat = sizeof target struct_Config).
Proof.
  intros Hi. rewrite currentOffsets_entry_addr_by_target.
  eexists. split; [reflexivity |].
  rewrite Config_size_by_target.
  change (sizeof target Tint16) with 2%nat.
  unfold CONFIG_BLOCK_SIZE, NUM_IFS, NUM_BATS, NUM_LOADS, NUM_PANELS.
  destruct (short_enums target), (use_16_bit_ticks target); simpl; lia.
Qed.

Lemma currentOffsets_entry_stays_in_block_witness :
  exists a,
    currentOffsets_entry_addr
      {| short_enums := true; use_16_bit_ticks := false |} 255 = Some a
    /\ (a + 2 <= CONFIG_BLOCK_SIZE)%nat.
Proof.
  assert (Hi : (255 < 256)%nat) by lia.
  destruct (currentOffsets_entry_stays_in_block
              {| short_enums := true; use_16_bit_ticks := false |} 255 Hi)
    as (a & Ha & Hblock & _).
  exists a. split; [exact Ha | exact Hblock].
Defined.

(** ** Independence of the measured channels *)

Lemma load_store_int16_other (m : list Z) (a b : nat) (v : Z) :
  (S a < b \/ S b < a)%nat ->
  load_int16 (store_int16 m a v) b = load_int16 m b.
Proof.
  intros Hab. unfold load_int16, store_int16.
  rewrite !list_lookup_insert_ne by lia. reflexivity.
Qed.

Lemma store_int16_length (m : list Z) (a : nat) (v : Z) :
  length (store_int16 m a v) = length m.
Proof. unfold store_int16. rewrite !length_insert. reflexivity. Qed.

(** X6: the six channels of a [union InterfaceGroup] occupy disjoint bytes:
    writing channel [i] through either view keeps the object's size and
    leaves every other channel as it was, read through either view. *)
Theorem InterfaceGroup_channels_independent (target : abi) (m : list Z)
    (i j : nat) (v : Z) :
  (i < NUM_IFS)%nat -> (j < NUM_IFS)%nat -> i <> j ->
  exists ci cj m1 m2,
    member_of_index i = Some ci
    /\ member_of_index j = Some cj
    /\ write_data target m i v = Some m1
    /\ write_dataArray target m ci v = Some m2
    /\ m1 = m2
    /\ length m1 = length m
    /\ read_data target m1 j = read_data target m j
    /\ read_dataArray target m1 cj = read_dataArray target m cj.
Proof.
  intros Hi Hj Hne.
  destruct (member_of_index_in_range i Hi) as (ci & Hci & Hvi & Hii).
  destruct (member_of_index_in_range j Hj) as (cj & Hcj & Hvj & Hjj).
  pose proof (data_addr_in_range target i Hi) as Hdi.
  pose proof (data_addr_in_range target j Hj) as Hdj.
  pose proof (dataArray_addr_in_range target ci Hvi) as Hai.
  pose proof (dataArray_addr_in_range target cj Hvj) as Haj.
  rewrite Hii in Hai. rewrite Hjj in Haj.
  exists ci, cj, (store_int16 m (2 * i) v), (store_int16 m (2 * i) v).
  unfold write_data, write_dataArray, read_data, read_dataArray.
  rewrite Hdi, Hai, Hdj, Haj. simpl.
  repeat split; try assumption.
  - apply store_int16_length.
  - apply load_store_int16_other. lia.
  - apply load_store_int16_other. lia.
Qed.

Lemma InterfaceGroup_channels_independent_witness :
  exists m1,
    write_data {| short_enums := true; use_16_bit_ticks := false |}
      [1; 0; 2; 0; 3; 0; 4; 0; 5; 0; 6; 0] 3 (-2) = Some m1
    /\ read_data {| short_enums := true; use_16_bit_ticks := false |} m1 4
       = Some 5.
Proof.
  assert (H3 : (3 < NUM_IFS)%nat) by (vm_compute; lia).
  assert (H4 : (4 < NUM_IFS)%nat) by (vm_compute; lia).
  assert (Hne : 3%nat <> 4%nat) by lia.
  destruct (InterfaceGroup_channels_independent
              {| short_enums := true; use_16_bit_ticks := false |}
              [1; 0; 2; 0; 3; 0; 4; 0; 5; 0; 6; 0] 3 4 (-2) H3 H4 Hne)
    as (ci & cj & m1 & m2 & _ & _ & Hw & _ & _ & _ & Hr & _).
  exists m1. split; [exact Hw |]. rewrite Hr. reflexivity.
Defined.

(** ** Calibration constants against their documented derivations *)

(** X7: the voltage scale of every board revision is the documented
    product gain x 3.3 x 256 rounded down, the temperature scale is exactly
    3.28 V / 10 mV x 256, the temperature offset is 2.732 / 3.280 x 4096
    rounded to nearest, the float delay is two hours in seconds, and the
    voltage offsets of revisions 1 and 2 are within 0.02 percent of
    5 x gain x 256 x 4096. *)
Theorem calibration_constants_follow_their_derivations :
  (forall v, VOLTAGE_SCALE v = Qfloor (documented_VOLTAGE_SCALE v))
  /\ (inject_Z TEMPERATURE_SCALE == documented_TEMPERATURE_SCALE)%Q
  /\ TEMPERATURE_OFFSET = Qnearest documented_TEMPERATURE_OFFSET
  /\ FLOAT_DELAY = 2 * 3600
  /\ within_ppm 200 (VOLTAGE_OFFSET Version1)
       (documented_VOLTAGE_OFFSET Version1)
  /\ within_ppm 200 (VOLTAGE_OFFSET Version2)
       (documented_VOLTAGE_OFFSET Version2).
Proof.
  split; [intros v; destruct v; vm_compute; reflexivity |].
  split; [vm_compute; reflexivity |].
  split; [vm_compute; reflexivity |].
  split; [reflexivity |].
  split; unfold within_ppm, Qle; vm_compute; discriminate.
Qed.

(** X8: two calibration constants are not what their comments derive.
    [CURRENT_SCALE] is 8373, more than 4 percent below 10.4 x 3.280 x 256
    (8732.67); [VOLTAGE_OFFSET] for revision 3 is more than 20 percent
    above 5 x 1.679 x 256 x 4096 and within 0.02 percent of
    6 x 1.679 x 256 x 4096. *)
Theorem calibration_constants_off_their_derivations :
  CURRENT_SCALE = 8373
  /\ Qfloor documented_CURRENT_SCALE = 8732
  /\ ~ within_ppm 40000 CURRENT_SCALE documented_CURRENT_SCALE
  /\ ~ within_ppm 200000 (VOLTAGE_OFFSET Version3)
         (documented_VOLTAGE_OFFSET Version3)
  /\ within_ppm 200 (VOLTAGE_OFFSET Version3)
       (6 * documented_gain Version3 * 256 * 4096)%Q.
Proof.
  split; [reflexivity |]. split; [vm_compute; reflexivity |].
  split; [| split]; unfold within_ppm, Qle.
  - vm_compute. intros H. apply H. reflexivity.
  - vm_compute. intros H. apply H. reflexivity.
  - vm_compute. discriminate.
Qed.

(** ** The defaults as a consistent set *)

(** X9: the default thresholds are strictly ordered and the SoC levels
    are more than one hysteresis band apart: weak below critical below low
    below good voltage; critical SoC below low SoC, low SoC below the rest
    SoC less the hysteresis, rest SoC plus the hysteresis below the
    float-bulk SoC, and float-bulk SoC plus the hysteresis not above
    100 percent; the rest time is shorter than the absorption time and
    that shorter than the float delay. *)
Theorem default_thresholds_ordered :
  (0 < WEAK_VOLTAGE < CRITICAL_VOLTAGE
   /\ CRITICAL_VOLTAGE < LOW_VOLTAGE < GOOD_VOLTAGE)
  /\ (0 < CRITICAL_SOC < LOW_SOC
      /\ LOW_SOC < REST_SoC - SoC_HYSTERESIS
      /\ REST_SoC + SoC_HYSTERESIS < FLOAT_BULK_SOC
      /\ FLOAT_BULK_SOC + SoC_HYSTERESIS <= SoC_MAX)
  /\ 0 < REST_TIME < ABSORPTION_TIME
  /\ ABSORPTION_TIME < FLOAT_DELAY.
Proof. vm_compute. repeat split; congruence. Qed.

(** X10: every compiled-in default fits the configuration member that
    holds it, so initialising the record truncates nothing; the default
    current offset fits an [int16_t] entry and is a converter reading;
    the temperature scale and the voltage offsets fit 32 bits but not
    16, so they cannot be held in an [int16_t]. *)
Theorem defaults_fit_their_members :
  Forall (fun d => Config_member_holds d.1 d.2) Config_defaults
  /\ in_int16 CURRENT_OFFSET
  /\ adc_sample CURRENT_OFFSET
  /\ in_int16 CURRENT_SCALE
  /\ (forall v, in_int16 (VOLTAGE_SCALE v))
  /\ ~ in_int16 TEMPERATURE_SCALE
  /\ (forall v, ~ in_int16 (VOLTAGE_OFFSET v))
  /\ ctype_holds Tint32 TEMPERATURE_SCALE
  /\ (forall v, ctype_holds Tint32 (VOLTAGE_OFFSET v)).
Proof.
  split.
  { repeat (apply Forall_cons_2; [vm_compute; split; congruence |]).
    apply Forall_nil_2. }
  unfold in_int16, adc_sample, ctype_holds, CURRENT_OFFSET, CURRENT_SCALE,
    TEMPERATURE_SCALE.
  split; [lia |]. split; [lia |]. split; [lia |].
  split; [intros v; destruct v; simpl; lia |].
  split; [lia |].
  split; [intros v; destruct v; simpl; lia |].
  split; [lia |].
  intros v; destruct v; simpl; lia.
Qed.
